(** * MacroTrack: nutrition aggregation, goal progress and metabolic formulas

    A shallow embedding of the computation layer of the MacroTrack
    application:

    - [macrotrack_database_models.ts]: the Mongoose models [User]
      (macro-percentage hook, [generateBMR], [generateTDEE]) and [MealEntry]
      (the pre-save hook that recomputes meal and daily totals);
    - [macrotrack_api_controllers.ts]: the zod [mealSchema], the
      [foods/[id]] and [meals/index] handlers, [calculateGoalProgress] and
      the mock nutrition table of the Spoonacular service;
    - [macrotrack-complete.tsx]: the front-end [calculateBMR] and
      [calculateTDEE].

    JavaScript numbers are IEEE 754 binary64 values; they are embedded as
    Rocq's primitive [float], whose operations are the binary64 operations
    with round-to-nearest-even.  Leibniz equality on [float] identifies all
    NaNs and separates [+0] from [-0], like [Object.is]. *)

From stdpp Require Import base list strings gmap.
From Stdlib Require Import ZArith Floats.
From Stdlib Require Uint63.

#[local] Set Warnings "-inexact-float".
#[local] Open Scope float_scope.

(** ** JavaScript numbers *)

Module JS.

(** An integer-valued result ([getFullYear]) as a number: the nearest
    binary64 value, exact for magnitudes up to 2^53. *)
Definition of_Z (n : Z) : float :=
  if (0 <=? n)%Z then of_uint63 (Uint63.of_Z n)
  else - of_uint63 (Uint63.of_Z (- n)).

(** [isNaN(x)] on a number. *)
Definition isNaN (x : float) : bool := is_nan x.

(** [ToBoolean] on a number: [0], [-0] and [NaN] are falsy. *)
Definition truthy (x : float) : bool := negb (is_nan x || is_zero x).

(** [x || d] on numbers. *)
Definition or_else (x d : float) : float := if truthy x then x else d.

(** [Math.round(x)]: the integer nearest to [x], ties towards +infinity;
    NaN, the infinities and the zeros are returned unchanged, and a result
    of zero keeps the sign of [x].  A finite non-zero [x] is [(-1)^s * m *
    2^e]; for [e < 0] the result is [floor(x + 1/2)], computed exactly on
    integers. *)
Definition Math_round (x : float) : float :=
  match Prim2SF x with
  | S754_finite s m e =>
      if (0 <=? e)%Z then x
      else
        let v := if s then Z.neg m else Z.pos m in
        let n := ((2 * v + 2 ^ (- e)) `div` 2 ^ (1 - e))%Z in
        if (n =? 0)%Z then (if s then neg_zero else zero) else of_Z n
  | _ => x
  end.

(** [Math.max(a, b)]: NaN if either argument is NaN, otherwise the larger
    one, with [+0] larger than [-0]. *)
Definition Math_max (a b : float) : float :=
  if is_nan a || is_nan b then nan
  else if a <? b then b
  else if b <? a then a
  else if get_sign a then b else a.






(** [Math.min(a, b)]: NaN if either argument is NaN, otherwise the smaller
    one, with [-0] smaller than [+0]. *)
Definition Math_min (a b : float) : float :=
  if is_nan a || is_nan b then nan
  else if a <? b then a
  else if b <? a then b
  else if get_sign a then a else b.

End JS.

(** ** Model layer: [MealEntry] ([macrotrack_database_models.ts]) *)

(** [INutrition] as a [NutritionSchema] sub-document: the optional fields
    carry the schema default [0] when absent. *)
Module INutrition.
Record t : Type := mk {
  calories : float;
  protein : float;
  carbohydrates : float;
  fat : float;
  fiber : float;
  sugar : float;
  sodium : float;
  potassium : float;
  calcium : float;
  iron : float
}.
End INutrition.

(** The five-field object [{calories, protein, carbohydrates, fat, fiber}]:
    the shape of [mealTotals] ([MealTotalsSchema]) and of the nutrition
    objects accepted by the zod [mealSchema]. *)
Module Macros.
Record t : Type := mk {
  calories : float;
  protein : float;
  carbohydrates : float;
  fat : float;
  fiber : float
}.
End Macros.

Inductive MealType : Type := breakfast | lunch | dinner | snack.

#[global] Instance MealType_eq_dec : EqDecision MealType.
Proof. solve_decision. Defined.

(** [IFood].  The display name and the catalogue ids are stored as given
    and read by none of the computations embedded here; they are left out. *)
Record IFood : Type := {
  amount : float;
  unit : string;
  nutritionPer100g : INutrition.t;
  actualNutrition : INutrition.t;
  addedAt : Z;
  isCustomFood : bool
}.

Record IMeal : Type := {
  mealType : MealType;
  foods : list IFood;
  mealTotals : Macros.t
}.

Module IGoalProgress.
Record t : Type := mk {
  target : float;
  actual : float;
  percentage : float;
  remaining : float
}.
End IGoalProgress.

Module GoalProgressSet.
Record t : Type := mk {
  calories : IGoalProgress.t;
  protein : IGoalProgress.t;
  carbohydrates : IGoalProgress.t;
  fat : IGoalProgress.t
}.
End GoalProgressSet.

(** [IMealEntry]; [date] is the entry's timestamp in milliseconds. *)
Record IMealEntry : Type := {
  userId : string;
  date : Z;
  meals : list IMeal;
  dailyTotals : INutrition.t;
  goalProgress : GoalProgressSet.t
}.

(** The reducer and the seed of [meal.foods.reduce(...)]. *)
Definition addFood (totals : Macros.t) (food : IFood) : Macros.t :=
  {| Macros.calories := Macros.calories totals + INutrition.calories (actualNutrition food);
     Macros.protein := Macros.protein totals + INutrition.protein (actualNutrition food);
     Macros.carbohydrates :=
       Macros.carbohydrates totals + INutrition.carbohydrates (actualNutrition food);
     Macros.fat := Macros.fat totals + INutrition.fat (actualNutrition food);
     Macros.fiber := Macros.fiber totals + INutrition.fiber (actualNutrition food) |}.

Definition zeroTotals : Macros.t := Macros.mk 0 0 0 0 0.

Definition calculatedTotals (fs : list IFood) : Macros.t :=
  foldl addFood zeroTotals fs.

(** The reducer and the seed of [this.meals.reduce(...)]. *)
Definition addMeal (totals : INutrition.t) (meal : IMeal) : INutrition.t :=
  {| INutrition.calories := INutrition.calories totals + Macros.calories (mealTotals meal);
     INutrition.protein := INutrition.protein totals + Macros.protein (mealTotals meal);
     INutrition.carbohydrates :=
       INutrition.carbohydrates totals + Macros.carbohydrates (mealTotals meal);
     INutrition.fat := INutrition.fat totals + Macros.fat (mealTotals meal);
     INutrition.fiber := INutrition.fiber totals + Macros.fiber (mealTotals meal);
     INutrition.sugar := JS.or_else (INutrition.sugar totals) 0;
     INutrition.sodium := JS.or_else (INutrition.sodium totals) 0;
     INutrition.potassium := JS.or_else (INutrition.potassium totals) 0;
     INutrition.calcium := JS.or_else (INutrition.calcium totals) 0;
     INutrition.iron := JS.or_else (INutrition.iron totals) 0 |}.

Definition zeroNutrition : INutrition.t := INutrition.mk 0 0 0 0 0 0 0 0 0 0.

Definition refreshMeal (meal : IMeal) : IMeal :=
  {| mealType := mealType meal;
     foods := foods meal;
     mealTotals := calculatedTotals (foods meal) |}.

(** [MealEntrySchema.pre('save')]: every meal's totals are overwritten, then
    the daily totals are reduced from the refreshed meals. *)
Definition preSave (this : IMealEntry) : IMealEntry :=
  let meals' := refreshMeal <$> meals this in
  {| userId := userId this;
     date := date this;
     meals := meals';
     dailyTotals := foldl addMeal zeroNutrition meals';
     goalProgress := goalProgress this |}.

(** ** Model layer: [User] ([macrotrack_database_models.ts]) *)

Inductive Gender : Type := male | female | other.
Inductive HeightUnit : Type := cm | inches.
Inductive WeightUnit : Type := kg | lbs.
Inductive ActivityLevel : Type :=
  sedentary | light | moderate | active | very_active.

Record Height : Type := { height_value : float; height_unit : HeightUnit }.
Record Weight : Type := { weight_value : float; weight_unit : WeightUnit }.

(** [IUserProfile].  Of [dateOfBirth] only [getFullYear()] is read by the
    methods below, so the date is held as its calendar year. *)
Record IUserProfile : Type := {
  dateOfBirth : Z;
  gender : Gender;
  height : Height;
  weight : Weight;
  activityLevel : ActivityLevel
}.

Module MacroTargets.
Record t : Type := mk {
  protein : float;
  carbohydrates : float;
  fat : float;
  fiber : float
}.
End MacroTargets.

Module MacroPercentages.
Record t : Type := mk {
  protein : float;
  carbohydrates : float;
  fat : float
}.
End MacroPercentages.

(** [IUserGoals]; [macroPercentages] is absent until the hook first fills
    it. *)
Record IUserGoals : Type := {
  dailyCalories : float;
  macroTargets : MacroTargets.t;
  macroPercentages : option MacroPercentages.t
}.

(** A [User] document: its data and the answer of Mongoose's change tracker
    to [this.isModified(path)]. *)
Record IUser : Type := {
  profile : IUserProfile;
  goals : IUserGoals;
  isModified : string → bool
}.

(** [UserSchema.pre('save')], the macro-percentage hook. *)
Definition preSaveUser (this : IUser) : IUser :=
  if isModified this "goals.macroTargets" || isModified this "goals.dailyCalories" then
    let protein := MacroTargets.protein (macroTargets (goals this)) in
    let carbohydrates := MacroTargets.carbohydrates (macroTargets (goals this)) in
    let fat := MacroTargets.fat (macroTargets (goals this)) in
    let totalCalories := dailyCalories (goals this) in
    {| profile := profile this;
       goals :=
         {| dailyCalories := dailyCalories (goals this);
            macroTargets := macroTargets (goals this);
            macroPercentages := Some
              {| MacroPercentages.protein :=
                   JS.Math_round ((protein * 4 / totalCalories) * 100);
                 MacroPercentages.carbohydrates :=
                   JS.Math_round ((carbohydrates * 4 / totalCalories) * 100);
                 MacroPercentages.fat :=
                   JS.Math_round ((fat * 9 / totalCalories) * 100) |} |};
       isModified := isModified this |}
  else this.

(** [UserSchema.methods.generateBMR]; [thisYear] is
    [new Date().getFullYear()]. *)
Definition generateBMR (thisYear : Z) (this : IUser) : float :=
  let age := JS.of_Z thisYear - JS.of_Z (dateOfBirth (profile this)) in
  let weightKg :=
    match weight_unit (weight (profile this)) with
    | kg => weight_value (weight (profile this))
    | lbs => weight_value (weight (profile this)) * 0.453592
    end in
  let heightCm :=
    match height_unit (height (profile this)) with
    | cm => height_value (height (profile this))
    | inches => height_value (height (profile this)) * 2.54
    end in
  let bmr :=
    match gender (profile this) with
    | male => 10 * weightKg + 6.25 * heightCm - 5 * age + 5
    | _ => 10 * weightKg + 6.25 * heightCm - 5 * age - 161
    end in
  JS.Math_round bmr.





(** ** Front end ([macrotrack-complete.tsx]) *)

(** [calculateBMR(weight, height, age, gender)]; [gender] is compared with
    the string ['male']. *)
Definition calculateBMR (weight height age : float) (gender : string) : float :=
  if String.eqb gender "male"
  then 10 * weight + 6.25 * height - 5 * age + 5
  else 10 * weight + 6.25 * height - 5 * age - 161.



(** ** Spoonacular service ([macrotrack_api_controllers.ts]) *)

Module SpoonacularNutrition.
Record t : Type := mk {
  calories : float;
  protein : float;
  carbohydrates : float;
  fat : float;
  fiber : float;
  sugar : option float;
  sodium : option float
}.
End SpoonacularNutrition.

(** [SpoonacularFood]; the name and image strings are not embedded. *)
Record SpoonacularFood : Type := {
  food_id : float;
  nutrition : SpoonacularNutrition.t
}.

Module SpoonacularService.

Definition entry (calories protein carbohydrates fat fiber sugar sodium : float)
  : SpoonacularNutrition.t :=
  SpoonacularNutrition.mk calories protein carbohydrates fat fiber
    (Some sugar) (Some sodium).

(** The [mockNutrition] table, keyed by food id. *)
Definition mockNutrition : list (float * SpoonacularNutrition.t) :=
  [ (1, entry 165 31 0 3.6 0 0 74);
    (2, entry 123 2.6 23 0.9 1.8 0.4 5);
    (3, entry 34 2.8 7 0.4 2.6 1.5 33);
    (4, entry 208 25 0 12 0 0 67);
    (5, entry 59 10 3.6 0.4 0 3.2 36);
    (6, entry 68 2.4 12 1.4 1.7 0.8 49);
    (7, entry 86 1.6 20 0.1 3 4.2 54);
    (8, entry 23 2.9 3.6 0.4 2.2 0.4 79);
    (9, entry 579 21 22 50 12 4.3 1);
    (10, entry 89 1.1 23 0.3 2.6 12 1) ].

(** [mockNutrition[id]]. *)
Fixpoint tableLookup (id : float) (table : list (float * SpoonacularNutrition.t))
  : option SpoonacularNutrition.t :=
  match table with
  | [] => None
  | (k, v) :: rest => if id =? k then Some v else tableLookup id rest
  end.

(** [mockNutrition[id] || mockNutrition[1]]. *)
Definition baseNutrition (id : float) : SpoonacularNutrition.t :=
  match tableLookup id mockNutrition with
  | Some v => v
  | None => entry 165 31 0 3.6 0 0 74
  end.

(** [x || 0] on an optional number. *)
Definition or_zero (x : option float) : float :=
  match x with
  | Some v => JS.or_else v 0
  | None => 0
  end.

(** [getMockNutritionData(id, amount, unit)]. *)
Definition getMockNutritionData (id amount : float) (unit : string)
  : SpoonacularFood :=
  let baseNutrition := baseNutrition id in
  let multiplier := amount / 100 in
  let scaledNutrition :=
    {| SpoonacularNutrition.calories :=
         JS.Math_round (SpoonacularNutrition.calories baseNutrition * multiplier);
       SpoonacularNutrition.protein :=
         JS.Math_round (SpoonacularNutrition.protein baseNutrition * multiplier * 10) / 10;
       SpoonacularNutrition.carbohydrates :=
         JS.Math_round
           (SpoonacularNutrition.carbohydrates baseNutrition * multiplier * 10) / 10;
       SpoonacularNutrition.fat :=
         JS.Math_round (SpoonacularNutrition.fat baseNutrition * multiplier * 10) / 10;
       SpoonacularNutrition.fiber :=
         JS.Math_round (SpoonacularNutrition.fiber baseNutrition * multiplier * 10) / 10;
       SpoonacularNutrition.sugar := Some
         (JS.Math_round
            (or_zero (SpoonacularNutrition.sugar baseNutrition) * multiplier * 10) / 10);
       SpoonacularNutrition.sodium := Some
         (JS.Math_round
            (or_zero (SpoonacularNutrition.sodium baseNutrition) * multiplier * 10) / 10)
    |} in
  {| food_id := id; nutrition := scaledNutrition |}.

(** [getFoodNutrition(id, amount, unit)].  [mockMode] is the service's
    flag; [apiFood] is the record built from the remote answer, [None]
    when the remote call throws, in which case the mock data is used. *)
Definition getFoodNutrition (mockMode : bool) (apiFood : option SpoonacularFood)
    (id amount : float) (unit : string) : SpoonacularFood :=
  if mockMode then getMockNutritionData id amount unit
  else match apiFood with
       | Some food => food
       | None => getMockNutritionData id amount unit
       end.

End SpoonacularService.

(** ** Controller [foods/[id]] *)

Module FoodsId.

(** The request as the handler reads it.  [id] is [None] when the query
    has no string [id] and otherwise holds [parseInt(id)]; [amountNum] is
    [parseFloat(amount)] with [amount] defaulting to ['100']; [unit] is
    the [unit] parameter, defaulting to ['grams']. *)
Record Request : Type := {
  method : string;
  user : option string;
  id : option float;
  amountNum : float;
  unit : option string
}.

Inductive Response : Type :=
| METHOD_NOT_ALLOWED
| NOT_AUTHENTICATED
| MISSING_ID
| INVALID_ID
| INVALID_AMOUNT
| Ok (food : SpoonacularFood) (requestedAmount : float) (requestedUnit : string).

Definition handler (mockMode : bool) (apiFood : option SpoonacularFood)
    (req : Request) : Response :=
  if negb (String.eqb (method req) "GET") then METHOD_NOT_ALLOWED
  else match user req with
  | None => NOT_AUTHENTICATED
  | Some _ =>
    match id req with
    | None => MISSING_ID
    | Some foodId =>
      if JS.isNaN foodId then INVALID_ID
      else if JS.isNaN (amountNum req) || (amountNum req <=? 0) then INVALID_AMOUNT
      else
        let unit := default "grams" (unit req) in
        Ok (SpoonacularService.getFoodNutrition mockMode apiFood
              foodId (amountNum req) unit)
           (amountNum req) unit
    end
  end.

End FoodsId.

(** ** Controller [meals/index] *)

(** [calculateGoalProgress(actual, target)]. *)
Definition calculateGoalProgress (actual target : float) : IGoalProgress.t :=
  {| IGoalProgress.target := target;
     IGoalProgress.actual := JS.Math_round (actual * 100) / 100;
     IGoalProgress.percentage :=
       if 0 <? target then JS.Math_round ((actual / target) * 100) else 0;
     IGoalProgress.remaining := JS.Math_max 0 (target - actual) |}.

(** The [goalProgress] object the handler builds from the saved entry's
    daily totals and the user's goals. *)
Definition evaluateProgress (dailyTotals : INutrition.t) (goals : IUserGoals)
  : GoalProgressSet.t :=
  {| GoalProgressSet.calories :=
       calculateGoalProgress (INutrition.calories dailyTotals) (dailyCalories goals);
     GoalProgressSet.protein :=
       calculateGoalProgress (INutrition.protein dailyTotals)
         (MacroTargets.protein (macroTargets goals));
     GoalProgressSet.carbohydrates :=
       calculateGoalProgress (INutrition.carbohydrates dailyTotals)
         (MacroTargets.carbohydrates (macroTargets goals));
     GoalProgressSet.fat :=
       calculateGoalProgress (INutrition.fat dailyTotals)
         (MacroTargets.fat (macroTargets goals)) |}.

(** One element of [foods] in the request body, with the keys [mealSchema]
    keeps. *)
Module FoodInput.
Record t : Type := mk {
  amount : float;
  unit : string;
  nutritionPer100g : Macros.t;
  actualNutrition : Macros.t;
  isCustomFood : option bool
}.
End FoodInput.

(** The request body; [date] is the timestamp of [new Date(str)]. *)
Module MealBody.
Record t : Type := mk {
  date : Z;
  mealType : string;
  foods : list FoodInput.t
}.
End MealBody.

(** The value [mealSchema.parse] returns. *)
Module ValidatedData.
Record t : Type := mk {
  date : Z;
  mealType : MealType;
  foods : list FoodInput.t
}.
End ValidatedData.

Module MealsIndex.

(** [z.number().min(k)]: a number, not NaN, at least [k]. *)
Definition z_number_min (k x : float) : bool := negb (JS.isNaN x) && (k <=? x).

Definition z_nutrition (n : Macros.t) : bool :=
  z_number_min 0 (Macros.calories n) && z_number_min 0 (Macros.protein n)
  && z_number_min 0 (Macros.carbohydrates n) && z_number_min 0 (Macros.fat n)
  && z_number_min 0 (Macros.fiber n).

Definition z_food (f : FoodInput.t) : bool :=
  z_number_min 0.1 (FoodInput.amount f) && z_nutrition (FoodInput.nutritionPer100g f)
  && z_nutrition (FoodInput.actualNutrition f).

(** [z.enum(['breakfast', 'lunch', 'dinner', 'snack'])]. *)
Definition z_mealType (s : string) : option MealType :=
  if String.eqb s "breakfast" then Some breakfast
  else if String.eqb s "lunch" then Some lunch
  else if String.eqb s "dinner" then Some dinner
  else if String.eqb s "snack" then Some snack
  else None.

(** [mealSchema.parse(req.body)]; [None] stands for the thrown
    [ZodError]. *)
Definition mealSchema_parse (body : MealBody.t) : option ValidatedData.t :=
  match z_mealType (MealBody.mealType body) with
  | None => None
  | Some ty =>
      if forallb z_food (MealBody.foods body)
      then Some {| ValidatedData.date := MealBody.date body;
                   ValidatedData.mealType := ty;
                   ValidatedData.foods := MealBody.foods body |}
      else None
  end.

(** A five-field nutrition object cast to a [NutritionSchema]
    sub-document: the remaining fields take their default. *)
Definition castNutrition (n : Macros.t) : INutrition.t :=
  {| INutrition.calories := Macros.calories n;
     INutrition.protein := Macros.protein n;
     INutrition.carbohydrates := Macros.carbohydrates n;
     INutrition.fat := Macros.fat n;
     INutrition.fiber := Macros.fiber n;
     INutrition.sugar := 0; INutrition.sodium := 0; INutrition.potassium := 0;
     INutrition.calcium := 0; INutrition.iron := 0 |}.

(** [{...food, addedAt: new Date(), isCustomFood: food.isCustomFood || false}]. *)
Definition toFood (now : Z) (food : FoodInput.t) : IFood :=
  {| amount := FoodInput.amount food;
     unit := FoodInput.unit food;
     nutritionPer100g := castNutrition (FoodInput.nutritionPer100g food);
     actualNutrition := castNutrition (FoodInput.actualNutrition food);
     addedAt := now;
     isCustomFood := default false (FoodInput.isCustomFood food) |}.

Definition newMeal (now : Z) (validatedData : ValidatedData.t) : IMeal :=
  {| mealType := ValidatedData.mealType validatedData;
     foods := toFood now <$> ValidatedData.foods validatedData;
     mealTotals := zeroTotals |}.

(** The validators of [FoodSchema] on a food sub-document. *)
Definition unitEnum : list string :=
  ["grams"; "cups"; "pieces"; "tablespoons"; "teaspoons"; "ounces"; "pounds"].

Definition validateFood (food : IFood) : bool :=
  (0.1 <=? amount food) && (amount food <=? 10000)
  && existsb (String.eqb (unit food)) unitEnum.

Inductive Response : Type :=
| METHOD_NOT_ALLOWED
| NOT_AUTHENTICATED
| VALIDATION_FAILED
| USER_NOT_FOUND
| DATABASE_VALIDATION_FAILED
| Saved (status : Z) (mealEntry : IMealEntry).

(** The entry handed to the first [mealEntry.save()]: a fresh document
    when the day has none, otherwise the found one with the meal of the
    submitted type replaced in place, or the new meal pushed. *)
Definition upsert (uid : string) (goals : IUserGoals) (now : Z)
    (validatedData : ValidatedData.t) (found : option IMealEntry) : IMealEntry :=
  let newMeal := newMeal now validatedData in
  match found with
  | None =>
      {| userId := uid;
         date := ValidatedData.date validatedData;
         meals := [newMeal];
         dailyTotals := zeroNutrition;
         goalProgress := evaluateProgress zeroNutrition goals |}
  | Some mealEntry =>
      let meals' :=
        match list_find (λ meal, mealType meal = ValidatedData.mealType validatedData)
                (meals mealEntry) with
        | Some (existingMealIndex, _) => <[existingMealIndex := newMeal]> (meals mealEntry)
        | None => meals mealEntry ++ [newMeal]
        end in
      {| userId := userId mealEntry;
         date := date mealEntry;
         meals := meals';
         dailyTotals := dailyTotals mealEntry;
         goalProgress := goalProgress mealEntry |}
  end.

(** [savedMealEntry.goalProgress = {...}]. *)
Definition setGoalProgress (goals : IUserGoals) (e : IMealEntry) : IMealEntry :=
  {| userId := userId e;
     date := date e;
     meals := meals e;
     dailyTotals := dailyTotals e;
     goalProgress := evaluateProgress (dailyTotals e) goals |}.

(** The handler.  [user] is the outcome of [getUserFromRequest],
    [userData] the goals of the document [User.findById] returns, [found]
    the outcome of [MealEntry.findOne] for the user and the day of the
    submitted date, [now] the current time.  A fresh document is rejected
    by the schema when its date lies in the future; the submitted foods
    pass through the [FoodSchema] validators.  Each [save()] runs
    [preSave]. *)
Definition handler (method : string) (user : option string) (body : MealBody.t)
    (userData : option IUserGoals) (found : option IMealEntry) (now : Z)
  : Response :=
  if negb (existsb (String.eqb method) ["POST"; "PUT"]) then METHOD_NOT_ALLOWED
  else match user with
  | None => NOT_AUTHENTICATED
  | Some uid =>
    match mealSchema_parse body with
    | None => VALIDATION_FAILED
    | Some validatedData =>
      match userData with
      | None => USER_NOT_FOUND
      | Some goals =>
        let mealEntry := upsert uid goals now validatedData found in
        if forallb validateFood (foods (newMeal now validatedData))
           && match found with
              | Some _ => true
              | None => (ValidatedData.date validatedData <=? now)%Z
              end
        then
          let savedMealEntry := preSave mealEntry in
          Saved (if String.eqb method "POST" then 201 else 200)%Z
                (preSave (setGoalProgress goals savedMealEntry))
        else DATABASE_VALIDATION_FAILED
      end
    end
  end.

(** The content of the store for that user and day after the request. *)
Definition stored (found : option IMealEntry) (r : Response) : option IMealEntry :=
  match r with
  | Saved _ mealEntry => Some mealEntry
  | _ => found
  end.

End MealsIndex.

(** ** Controller [meals/daily/[date]] *)

Module MealsDaily.

(** The [date] query parameter: absent (or not a string), a string that
    [new Date] cannot read, or a readable date. *)
Inductive DateParam : Type := NoDate | BadDate | GoodDate (time : Z).

(** The [dailyTotals] object of the answer for a day without entry. *)
Record EmptyTotals : Type := {
  calories : float;
  protein : float;
  carbohydrates : float;
  fat : float;
  fiber : float;
  sugar : float;
  sodium : float
}.

(** The [mealEntry] of the answer for a day without entry; its [date] is
    the query string as received. *)
Record EmptyEntry : Type := {
  meals : list IMeal;
  dailyTotals : EmptyTotals;
  goalProgress : option GoalProgressSet.t
}.

Inductive Response : Type :=
| METHOD_NOT_ALLOWED
| NOT_AUTHENTICATED
| MISSING_DATE
| INVALID_DATE
| Found (mealEntry : IMealEntry)
| Empty (mealEntry : EmptyEntry).

(** [emptyGoals]: the user's targets with nothing eaten, [null] without
    user document. *)
Definition emptyGoals (userData : option IUserGoals) : option GoalProgressSet.t :=
  match userData with
  | Some goals =>
      Some
        {| GoalProgressSet.calories :=
             IGoalProgress.mk (dailyCalories goals) 0 0 (dailyCalories goals);
           GoalProgressSet.protein :=
             IGoalProgress.mk (MacroTargets.protein (macroTargets goals)) 0 0
               (MacroTargets.protein (macroTargets goals));
           GoalProgressSet.carbohydrates :=
             IGoalProgress.mk (MacroTargets.carbohydrates (macroTargets goals)) 0 0
               (MacroTargets.carbohydrates (macroTargets goals));
           GoalProgressSet.fat :=
             IGoalProgress.mk (MacroTargets.fat (macroTargets goals)) 0 0
               (MacroTargets.fat (macroTargets goals)) |}
  | None => None
  end.

(** The handler.  [user] is the outcome of [getUserFromRequest], [found]
    that of [MealEntry.findOne] for the user and the requested day,
    [userData] the goals of the document [User.findById] returns. *)
Definition handler (method : string) (user : option string) (date : DateParam)
    (found : option IMealEntry) (userData : option IUserGoals) : Response :=
  if negb (String.eqb method "GET") then METHOD_NOT_ALLOWED
  else match user with
  | None => NOT_AUTHENTICATED
  | Some _ =>
    match date with
    | NoDate => MISSING_DATE
    | BadDate => INVALID_DATE
    | GoodDate _ =>
      match found with
      | None =>
          Empty {| meals := [];
                   dailyTotals :=
                     {| calories := 0; protein := 0; carbohydrates := 0; fat := 0;
                        fiber := 0; sugar := 0; sodium := 0 |};
                   goalProgress := emptyGoals userData |}
      | Some mealEntry => Found mealEntry
      end
    end
  end.

End MealsDaily.

(** ** The [MacroRing] component ([macrotrack-complete.tsx]) *)

Module MacroRing.

Definition percentage (current target : float) : float :=
  if 0 <? target then JS.Math_min ((current / target) * 100) 100 else 0.

Definition remaining (current target : float) : float :=
  JS.Math_max (target - current) 0.

(** The values of the two slices of the ring, consumed and remaining. *)
Definition data (current target : float) : list float :=
  [percentage current target; 100 - percentage current target].

End MacroRing.

(** ** Database connection cache ([macrotrack_database_models.ts]) *)

Module ConnectDB.

Section Cache.

Context {Conn : Type}.

(** A promise of [mongoose.connect], held by what it settles to: [Some] the
    connection, or [None] when it rejects. *)
Definition ConnectPromise : Type := option Conn.

(** The [cached] object. *)
Record MongooseCache : Type := {
  conn : option Conn;
  promise : option ConnectPromise
}.

(** [cached] at module load, when [global.mongoose] is not set. *)
Definition initial : MongooseCache := {| conn := None; promise := None |}.

(** One call of [connectDB] that runs to its end before the next one
    starts.  [connect] is what [mongoose.connect] settles to if the call
    invokes it.  The result is the cache after the call and the returned
    connection, [None] when the call throws. *)
Definition connectDB (connect : ConnectPromise) (cached : MongooseCache)
  : MongooseCache * option Conn :=
  match conn cached with
  | Some c => (cached, Some c)
  | None =>
      let promise' :=
        match promise cached with
        | Some p => p
        | None => connect
        end in
      match promise' with
      | Some c => ({| conn := Some c; promise := Some promise' |}, Some c)
      | None => ({| conn := conn cached; promise := None |}, None)
      end
  end.

(** A sequence of calls, each given what its [mongoose.connect] would
    settle to; the cache after the last one. *)
Definition run (connects : list ConnectPromise) (cached : MongooseCache)
  : MongooseCache :=
  foldl (λ c connect, fst (connectDB connect c)) cached connects.

End Cache.

End ConnectDB.

(** ** Authentication utilities ([macrotrack_api_controllers.ts]) *)

Module AuthLib.

(** [JWTPayload]; the issue and expiry times are not embedded. *)
Record JWTPayload : Type := {
  userId : string;
  email : string
}.

(** What [getTokenFromRequest] reads of a request: the [authorization]
    header and the value of the [auth-token] cookie, when present. *)
Record Request : Type := {
  authorization : option string;
  authTokenCookie : option string
}.

(** [s.substring(n)]. *)
Definition substringFrom (n : nat) (s : string) : string :=
  String.substring n (String.length s - n) s.

Definition getTokenFromRequest (request : Request) : option string :=
  match authorization request with
  | Some authHeader =>
      if negb (String.eqb authHeader "") && String.prefix "Bearer " authHeader
      then Some (substringFrom 7 authHeader)
      else authTokenCookie request
  | None => authTokenCookie request
  end.

(** [request.headers.get] returns a header's value without leading or
    trailing blanks (space, tab, line feed, carriage return): [trimmed]
    tells the values it can return. *)
Definition isBlank (c : Ascii.ascii) : bool :=
  let n := Ascii.nat_of_ascii c in
  (n =? 32)%nat || (n =? 9)%nat || (n =? 10)%nat || (n =? 13)%nat.

Definition startsBlank (s : string) : bool :=
  match s with
  | EmptyString => false
  | String c _ => isBlank c
  end.

Fixpoint endsBlank (s : string) : bool :=
  match s with
  | EmptyString => false
  | String c EmptyString => isBlank c
  | String _ rest => endsBlank rest
  end.

Definition trimmed (s : string) : bool :=
  negb (startsBlank s) && negb (endsBlank s).

(** [getUserFromRequest]; [verifyToken] gives the payload of a token that
    [jwt.verify] accepts and [None] for one on which it throws. *)
Definition getUserFromRequest (verifyToken : string → option JWTPayload)
    (request : Request) : option JWTPayload :=
  match getTokenFromRequest request with
  | None => None
  | Some token => if String.eqb token "" then None else verifyToken token
  end.

End AuthLib.

(** ** [User] virtual [age] and the [dateOfBirth] validator *)

Module UserDates.

(** A [Date] by the local calendar fields the code reads: [getFullYear()],
    [getMonth()] and [getDate()]. *)
Record LocalDate : Type := {
  getFullYear : Z;
  getMonth : Z;
  getDate : Z
}.

Local Open Scope Z_scope.

(** The getter of the virtual [age]. *)
Definition age (now birth : LocalDate) : Z :=
  let age := getFullYear now - getFullYear birth in
  let monthDiff := getMonth now - getMonth birth in
  if (monthDiff <? 0) || ((monthDiff =? 0) && (getDate now <? getDate birth))
  then age - 1
  else age.

(** The validator of [profile.dateOfBirth]. *)
Definition validator (now date : LocalDate) : bool :=
  let age := getFullYear now - getFullYear date in
  (13 <=? age) && (age <=? 120).

End UserDates.

(** ** Front end: auth reducer, meal logger, mock API
    ([macrotrack-complete.tsx]) *)

Module AuthReducer.

Section Reducer.

(** The user object is carried as it comes. *)
Context {U : Type}.

Record State : Type := {
  user : option U;
  token : option string;
  isLoading : bool;
  isAuthenticated : bool
}.

(** The actions by their [type]: ['LOGIN'] with its payload, ['LOGOUT'],
    ['SET_LOADING'] with its payload, and any other type. *)
Inductive Action : Type :=
| LOGIN (user : option U) (token : option string)
| LOGOUT
| SET_LOADING (payload : bool)
| Other.

Definition authReducer (state : State) (action : Action) : State :=
  match action with
  | LOGIN u t =>
      {| user := u; token := t; isAuthenticated := true; isLoading := false |}
  | LOGOUT =>
      {| user := None; token := None; isAuthenticated := false; isLoading := false |}
  | SET_LOADING payload =>
      {| user := user state; token := token state;
         isAuthenticated := isAuthenticated state; isLoading := payload |}
  | Other => state
  end.

(** The initial state of [AuthProvider]. *)
Definition initialState : State :=
  {| user := None; token := None; isLoading := false; isAuthenticated := false |}.

(** The state after a sequence of dispatched actions. *)
Definition run (actions : list Action) : State :=
  foldl authReducer initialState actions.

(** The actions that set or clear the credentials. *)
Definition isCredentialAction (action : Action) : bool :=
  match action with
  | LOGIN _ _ | LOGOUT => true
  | _ => false
  end.

End Reducer.

End AuthReducer.

Module MealLogger.

Section Foods.

Context {Food : Type}.

(** [array.filter((_, i) => keep(i))], from index [i] on. *)
Fixpoint filterIndex (keep : nat → bool) (i : nat) (l : list Food) : list Food :=
  match l with
  | [] => []
  | x :: rest =>
      if keep i then x :: filterIndex keep (S i) rest
      else filterIndex keep (S i) rest
  end.

(** [handleFoodSelect]: the new list of selected foods. *)
Definition handleFoodSelect (food : Food) (prev : list Food) : list Food :=
  prev ++ [food].

(** [handleRemoveFood]: the new list of selected foods. *)
Definition handleRemoveFood (index : nat) (prev : list Food) : list Food :=
  filterIndex (λ i, negb (i =? index)%nat) 0 prev.

End Foods.

End MealLogger.

Module MockApi.

(** The [mockNutrition] table of [mockApiService.getFoodDetails]. *)
Definition mockNutrition : list (float * Macros.t) :=
  [ (1, Macros.mk 165 31 0 3.6 0);
    (2, Macros.mk 123 2.6 23 0.9 1.8);
    (3, Macros.mk 34 2.8 7 0.4 2.6);
    (4, Macros.mk 208 25 0 12 0);
    (5, Macros.mk 59 10 3.6 0.4 0);
    (6, Macros.mk 68 2.4 12 1.4 1.7) ].

Fixpoint tableLookup (id : float) (table : list (float * Macros.t))
  : option Macros.t :=
  match table with
  | [] => None
  | (k, v) :: rest => if id =? k then Some v else tableLookup id rest
  end.

(** [getFoodDetails(id, amount)]: the [nutrition] of the returned food. *)
Definition getFoodDetails (id amount : float) : Macros.t :=
  let baseNutrition :=
    match tableLookup id mockNutrition with
    | Some v => v
    | None => Macros.mk 165 31 0 3.6 0
    end in
  let multiplier := amount / 100 in
  {| Macros.calories := JS.Math_round (Macros.calories baseNutrition * multiplier);
     Macros.protein :=
       JS.Math_round (Macros.protein baseNutrition * multiplier * 10) / 10;
     Macros.carbohydrates :=
       JS.Math_round (Macros.carbohydrates baseNutrition * multiplier * 10) / 10;
     Macros.fat := JS.Math_round (Macros.fat baseNutrition * multiplier * 10) / 10;
     Macros.fiber := JS.Math_round (Macros.fiber baseNutrition * multiplier * 10) / 10 |}.

End MockApi.

(** The string value of a gender of the profile. *)
Definition genderName (g : Gender) : string :=
  match g with
  | male => "male"
  | female => "female"
  | other => "other"
  end.

(** ** Mock food search ([macrotrack_api_controllers.ts]) *)

Module FoodSearch.

(** [SpoonacularSearchResult]. *)
Record SpoonacularSearchResult : Type := {
  id : float;
  name : string;
  image : string
}.

(** The [mockFoods] table. *)
Definition mockFoods : list SpoonacularSearchResult :=
  [ {| id := 1; name := "Chicken Breast"; image := "chicken-breast.jpg" |};
    {| id := 2; name := "Brown Rice"; image := "brown-rice.jpg" |};
    {| id := 3; name := "Broccoli"; image := "broccoli.jpg" |};
    {| id := 4; name := "Salmon Fillet"; image := "salmon.jpg" |};
    {| id := 5; name := "Greek Yogurt"; image := "greek-yogurt.jpg" |};
    {| id := 6; name := "Oatmeal"; image := "oatmeal.jpg" |};
    {| id := 7; name := "Sweet Potato"; image := "sweet-potato.jpg" |};
    {| id := 8; name := "Spinach"; image := "spinach.jpg" |};
    {| id := 9; name := "Almonds"; image := "almonds.jpg" |};
    {| id := 10; name := "Banana"; image := "banana.jpg" |} ].

(** [String.prototype.toLowerCase] on a text of ASCII characters only: the
    letters [A] to [Z] become [a] to [z], the other characters stay.  It
    stands for the built-in in the examples, whose strings are ASCII. *)
Definition asciiLowerChar (c : Ascii.ascii) : Ascii.ascii :=
  let n := Ascii.nat_of_ascii c in
  if (65 <=? n)%nat && (n <=? 90)%nat then Ascii.ascii_of_nat (n + 32) else c.

Fixpoint asciiToLowerCase (s : string) : string :=
  match s with
  | EmptyString => EmptyString
  | String c rest => String (asciiLowerChar c) (asciiToLowerCase rest)
  end.

(** [s.includes(q)]: [q] occurs in [s]. *)
Fixpoint includes (s q : string) : bool :=
  String.prefix q s
  || match s with
     | EmptyString => false
     | String _ rest => includes rest q
     end.

(** [array.slice(0, limit)].  [limit] is [None] for NaN and otherwise the
    integer value: a negative one counts from the end. *)
Definition slice0 {A} (limit : option Z) (l : list A) : list A :=
  match limit with
  | None => []
  | Some n =>
      if (n <? 0)%Z then take (Z.to_nat (Z.max (Z.of_nat (length l) + n) 0)) l
      else take (Z.to_nat n) l
  end.

(** [getMockSearchResults(query, limit)].  [toLowerCase] is the built-in
    [String.prototype.toLowerCase], taken as it is. *)
Definition getMockSearchResults (toLowerCase : string → string)
    (query : string) (limit : option Z) : list SpoonacularSearchResult :=
  slice0 limit
    (filter (λ food, includes (toLowerCase (name food)) (toLowerCase query) = true)
       mockFoods).

End FoodSearch.

(** ** The specification's formulas, as written there *)

Module Spec.

(** "Rounded to one decimal place". *)
Definition round1 (x : float) : float := JS.Math_round (x * 10) / 10.

(** "Rounded to 2 decimals". *)
Definition round2 (x : float) : float := JS.Math_round (x * 100) / 100.

(** [scale(ref, amount, referenceAmount)]: every field of [ref]
    multiplied by [amount / referenceAmount], calories rounded to the
    nearest integer and the gram-valued macros to one decimal place. *)
Definition scale (ref : Macros.t) (amount referenceAmount : float) : Macros.t :=
  let k := amount / referenceAmount in
  {| Macros.calories := JS.Math_round (Macros.calories ref * k);
     Macros.protein := round1 (Macros.protein ref * k);
     Macros.carbohydrates := round1 (Macros.carbohydrates ref * k);
     Macros.fat := round1 (Macros.fat ref * k);
     Macros.fiber := round1 (Macros.fiber ref * k) |}.

(** The sum of a sequence of numbers, taken in order from [0]. *)
Definition sum (xs : list float) : float := foldl add 0 xs.

(** [computeBMR]: the Mifflin-St Jeor formula, rounded to the nearest
    integer. *)
Definition computeBMR (weightKg heightCm age : float) (g : Gender) : float :=
  match g with
  | male => JS.Math_round (10 * weightKg + 6.25 * heightCm - 5 * age + 5)
  | _ => JS.Math_round (10 * weightKg + 6.25 * heightCm - 5 * age - 161)
  end.

(** Imperial values are converted before the calculation: pounds to
    kilograms by 0.453592, inches to centimetres by 2.54. *)
Definition toKg (w : Weight) : float :=
  match weight_unit w with
  | kg => weight_value w
  | lbs => weight_value w * 0.453592
  end.

Definition toCm (h : Height) : float :=
  match height_unit h with
  | cm => height_value h
  | inches => height_value h * 2.54
  end.



(** [kcalPerGram]: 4 for protein and carbohydrates, 9 for fat. *)
Inductive Macro : Type := Protein | Carbohydrates | Fat.

Definition kcalPerGram (x : Macro) : float :=
  match x with
  | Protein => 4
  | Carbohydrates => 4
  | Fat => 9
  end.

(** [round(macroTargets.X * kcalPerGram(X) / dailyCalories * 100)]. *)
Definition macroPercentage (x : Macro) (grams dailyCalories : float) : float :=
  JS.Math_round (grams * kcalPerGram x / dailyCalories * 100).

End Spec.

(** The five macro fields of a nutrition record. *)
Definition macrosOf (n : INutrition.t) : Macros.t :=
  {| Macros.calories := INutrition.calories n;
     Macros.protein := INutrition.protein n;
     Macros.carbohydrates := INutrition.carbohydrates n;
     Macros.fat := INutrition.fat n;
     Macros.fiber := INutrition.fiber n |}.

Definition macrosOfSpoonacular (n : SpoonacularNutrition.t) : Macros.t :=
  {| Macros.calories := SpoonacularNutrition.calories n;
     Macros.protein := SpoonacularNutrition.protein n;
     Macros.carbohydrates := SpoonacularNutrition.carbohydrates n;
     Macros.fat := SpoonacularNutrition.fat n;
     Macros.fiber := SpoonacularNutrition.fiber n |}.

(** A stored food whose actual nutrition is its reference nutrition scaled
    to its amount. *)
Definition scaledOk (food : IFood) : Prop :=
  macrosOf (actualNutrition food)
  = Spec.scale (macrosOf (nutritionPer100g food)) (amount food) 100.

(** A stored food that passes the checks a submission goes through: the
    [FoodSchema] validators on amount and unit, and the [mealSchema] checks
    on both nutrition records. *)
Definition storedFoodOk (food : IFood) : bool :=
  MealsIndex.validateFood food
  && MealsIndex.z_nutrition (macrosOf (actualNutrition food))
  && MealsIndex.z_nutrition (macrosOf (nutritionPer100g food)).

(** ** Saved-state predicates *)

(** A meal whose totals are the field-by-field sums over its foods. *)
Definition mealTotalsOk (meal : IMeal) : Prop :=
  Macros.calories (mealTotals meal)
    = Spec.sum ((λ f, INutrition.calories (actualNutrition f)) <$> foods meal)
  ∧ Macros.protein (mealTotals meal)
    = Spec.sum ((λ f, INutrition.protein (actualNutrition f)) <$> foods meal)
  ∧ Macros.carbohydrates (mealTotals meal)
    = Spec.sum ((λ f, INutrition.carbohydrates (actualNutrition f)) <$> foods meal)
  ∧ Macros.fat (mealTotals meal)
    = Spec.sum ((λ f, INutrition.fat (actualNutrition f)) <$> foods meal)
  ∧ Macros.fiber (mealTotals meal)
    = Spec.sum ((λ f, INutrition.fiber (actualNutrition f)) <$> foods meal).

(** An entry whose daily totals are the field-by-field sums over its meals'
    totals. *)
Definition dailyTotalsOk (e : IMealEntry) : Prop :=
  INutrition.calories (dailyTotals e)
    = Spec.sum ((λ m, Macros.calories (mealTotals m)) <$> meals e)
  ∧ INutrition.protein (dailyTotals e)
    = Spec.sum ((λ m, Macros.protein (mealTotals m)) <$> meals e)
  ∧ INutrition.carbohydrates (dailyTotals e)
    = Spec.sum ((λ m, Macros.carbohydrates (mealTotals m)) <$> meals e)
  ∧ INutrition.fat (dailyTotals e)
    = Spec.sum ((λ m, Macros.fat (mealTotals m)) <$> meals e)
  ∧ INutrition.fiber (dailyTotals e)
    = Spec.sum ((λ m, Macros.fiber (mealTotals m)) <$> meals e).

Definition totalsConsistent (e : IMealEntry) : Prop :=
  Forall mealTotalsOk (meals e) ∧ dailyTotalsOk e.

(** The extended fields of a nutrition record are all [0]. *)
Definition extendedZero (n : INutrition.t) : Prop :=
  INutrition.sugar n = 0 ∧ INutrition.sodium n = 0 ∧ INutrition.potassium n = 0
  ∧ INutrition.calcium n = 0 ∧ INutrition.iron n = 0.

(** The day's entries that a sequence of requests to [meals/index] can
    leave in the store, starting from a day without entry. *)
Inductive reachable : option IMealEntry → Prop :=
| reachable_empty : reachable None
| reachable_request found method user body userData now :
    reachable found →
    reachable
      (MealsIndex.stored found
         (MealsIndex.handler method user body userData found now)).

(** ** Sample data *)

Module Sample.

Definition today : Z := 1700000000000.

Definition userGoals : IUserGoals :=
  {| dailyCalories := 2000;
     macroTargets := MacroTargets.mk 150 250 65 25;
     macroPercentages := None |}.

(** A food input whose actual calories are [kcal]. *)
Definition foodOf (kcal : float) : FoodInput.t :=
  {| FoodInput.amount := 100;
     FoodInput.unit := "grams";
     FoodInput.nutritionPer100g := Macros.mk kcal 0 0 0 0;
     FoodInput.actualNutrition := Macros.mk kcal 0 0 0 0;
     FoodInput.isCustomFood := None |}.

Definition breakfastBody (kcal : float) : MealBody.t :=
  {| MealBody.date := today;
     MealBody.mealType := "breakfast";
     MealBody.foods := [foodOf kcal] |}.

(** The stored food and day that a breakfast of [kcal] calories gives. *)
Definition storedFood (kcal : float) : IFood :=
  {| amount := 100;
     unit := "grams";
     nutritionPer100g := INutrition.mk kcal 0 0 0 0 0 0 0 0 0;
     actualNutrition := INutrition.mk kcal 0 0 0 0 0 0 0 0 0;
     addedAt := today;
     isCustomFood := false |}.

Definition day (kcal percentage remaining : float) : IMealEntry :=
  {| userId := "u1";
     date := today;
     meals :=
       [ {| mealType := breakfast;
            foods := [storedFood kcal];
            mealTotals := Macros.mk kcal 0 0 0 0 |} ];
     dailyTotals := INutrition.mk kcal 0 0 0 0 0 0 0 0 0;
     goalProgress :=
       {| GoalProgressSet.calories := IGoalProgress.mk 2000 kcal percentage remaining;
          GoalProgressSet.protein := IGoalProgress.mk 150 0 0 150;
          GoalProgressSet.carbohydrates := IGoalProgress.mk 250 0 0 250;
          GoalProgressSet.fat := IGoalProgress.mk 65 0 0 65 |} |}.

(** Chicken breast, 150 g, sent with an actual nutrition that is not the
    scaled reference. *)
Definition unscaledFood : FoodInput.t :=
  {| FoodInput.amount := 150;
     FoodInput.unit := "grams";
     FoodInput.nutritionPer100g := Macros.mk 165 31 0 3.6 0;
     FoodInput.actualNutrition := Macros.mk 1000 1 2 3 4;
     FoodInput.isCustomFood := None |}.

Definition unscaledLunch : MealBody.t :=
  {| MealBody.date := today;
     MealBody.mealType := "lunch";
     MealBody.foods := [unscaledFood] |}.

(** The stored day that [unscaledLunch] gives. *)
Definition unscaledDay : IMealEntry :=
  {| userId := "u1";
     date := today;
     meals :=
       [ {| mealType := lunch;
            foods :=
              [ {| amount := 150;
                   unit := "grams";
                   nutritionPer100g := INutrition.mk 165 31 0 3.6 0 0 0 0 0 0;
                   actualNutrition := INutrition.mk 1000 1 2 3 4 0 0 0 0 0;
                   addedAt := today;
                   isCustomFood := false |} ];
            mealTotals := Macros.mk 1000 1 2 3 4 |} ];
     dailyTotals := INutrition.mk 1000 1 2 3 4 0 0 0 0 0;
     goalProgress :=
       {| GoalProgressSet.calories := IGoalProgress.mk 2000 1000 50 1000;
          GoalProgressSet.protein := IGoalProgress.mk 150 1 1 149;
          GoalProgressSet.carbohydrates := IGoalProgress.mk 250 2 1 248;
          GoalProgressSet.fat := IGoalProgress.mk 65 3 5 62 |} |}.

(** A day whose only food carries extended nutrients. *)
Definition banana : IFood :=
  {| amount := 100;
     unit := "grams";
     nutritionPer100g := INutrition.mk 89 1.1 23 0.3 2.6 12 1 358 5 0.3;
     actualNutrition := INutrition.mk 89 1.1 23 0.3 2.6 12 1 358 5 0.3;
     addedAt := today;
     isCustomFood := false |}.

Definition bananaDay : IMealEntry :=
  {| userId := "u1";
     date := today;
     meals := [ {| mealType := snack; foods := [banana]; mealTotals := zeroTotals |} ];
     dailyTotals := zeroNutrition;
     goalProgress := evaluateProgress zeroNutrition userGoals |}.

(** A male user, 75 kg, 180 cm, born in 1990. *)
Definition john (level : ActivityLevel) : IUser :=
  {| profile :=
       {| dateOfBirth := 1990;
          gender := male;
          height := {| height_value := 180; height_unit := cm |};
          weight := {| weight_value := 75; weight_unit := kg |};
          activityLevel := level |};
     goals :=
       {| dailyCalories := 2000;
          macroTargets := MacroTargets.mk 150 250 44 25;
          macroPercentages := None |};
     isModified := λ _, true |}.

(** A well-formed request for food 1 with the given parsed amount. *)
Definition foodRequest (amountNum : float) : FoodsId.Request :=
  {| FoodsId.method := "GET";
     FoodsId.user := Some "u1";
     FoodsId.id := Some 1;
     FoodsId.amountNum := amountNum;
     FoodsId.unit := None |}.

(** Daily totals of 1450 kcal, 95 g protein, 180 g carbohydrates and 45 g
    fat. *)
Definition eaten : INutrition.t := INutrition.mk 1450 95 180 45 0 0 0 0 0 0.

(** [bananaDay] as it could sit in the store with totals that are out of
    date. *)
Definition bananaDayStale : IMealEntry :=
  {| userId := "u1";
     date := today;
     meals :=
       [ {| mealType := snack; foods := [banana];
            mealTotals := Macros.mk 9999 9 9 9 9 |} ];
     dailyTotals := INutrition.mk 7 7 7 7 7 7 7 7 7 7;
     goalProgress := evaluateProgress zeroNutrition userGoals |}.

(** A lunch of 520 kcal to submit on a day that has a breakfast. *)
Definition lunchBody : MealBody.t :=
  {| MealBody.date := today;
     MealBody.mealType := "lunch";
     MealBody.foods := [foodOf 520] |}.

End Sample.

(** * Properties *)

(** ** JavaScript numbers *)

Example Math_round_ties_up :
  JS.Math_round 247.5 = 248 ∧ JS.Math_round 72.5 = 73
  ∧ JS.Math_round (-2.5) = -2 ∧ JS.Math_round 2.4 = 2
  ∧ JS.Math_round (-0.5) = neg_zero ∧ JS.Math_round 0.4 = 0
  ∧ JS.Math_round nan = nan ∧ JS.Math_round infinity = infinity.
Proof. repeat split; reflexivity. Qed.

Example Math_max_cases :
  JS.Math_max 0 550 = 550 ∧ JS.Math_max 0 (-50) = 0
  ∧ JS.Math_max 0 neg_zero = 0 ∧ JS.Math_max neg_zero 0 = 0
  ∧ JS.Math_max 0 nan = nan ∧ JS.Math_max 0 infinity = infinity.
Proof. repeat split; reflexivity. Qed.

Section FloatOrder.

Lemma Prim2SF_zero : Prim2SF 0 = S754_zero false.
Proof. reflexivity. Qed.

Lemma is_nan_spec x : is_nan x = negb (SFeqb (Prim2SF x) (Prim2SF x)).
Proof. unfold is_nan. by rewrite FloatAxioms.eqb_spec. Qed.

(** A number above zero is not NaN and is neither below nor equal to
    zero. *)
Lemma pos_not_nan x : (0 <? x) = true → is_nan x = false.
Proof.
  rewrite is_nan_spec, FloatAxioms.ltb_spec, Prim2SF_zero.
  destruct (Prim2SF x) as [[]|[]| |[] m e]; cbn; try done.
  all: intros _; by rewrite Pos.compare_refl, ?Z.compare_refl.
Qed.

Lemma pos_not_neg x : (0 <? x) = true → (x <? 0) = false.
Proof.
  rewrite !FloatAxioms.ltb_spec, Prim2SF_zero.
  by destruct (Prim2SF x) as [[]|[]| |[] m e].
Qed.

Lemma pos_not_le x : (0 <? x) = true → (x <=? 0) = false.
Proof.
  rewrite FloatAxioms.ltb_spec, FloatAxioms.leb_spec, Prim2SF_zero.
  by destruct (Prim2SF x) as [[]|[]| |[] m e].
Qed.

Lemma le_not_nan x : (x <=? 0) = true → is_nan x = false.
Proof.
  rewrite is_nan_spec, FloatAxioms.leb_spec, Prim2SF_zero.
  destruct (Prim2SF x) as [[]|[]| |[] m e]; cbn; try done.
  all: intros _; by rewrite Pos.compare_refl, ?Z.compare_refl.
Qed.

Lemma le_not_pos x : (x <=? 0) = true → (0 <? x) = false.
Proof.
  rewrite FloatAxioms.ltb_spec, FloatAxioms.leb_spec, Prim2SF_zero.
  by destruct (Prim2SF x) as [[]|[]| |[] m e].
Qed.

(** [Math.max(0, x)] by cases on [x]. *)
Lemma Math_max_0_pos x : (0 <? x) = true → JS.Math_max 0 x = x.
Proof.
  intros H. unfold JS.Math_max. rewrite (pos_not_nan x H), H. reflexivity.
Qed.

Lemma Math_max_0_le x : (x <=? 0) = true → JS.Math_max 0 x = 0.
Proof.
  intros H. unfold JS.Math_max.
  rewrite (le_not_nan x H), (le_not_pos x H). cbn.
  by destruct (x <? 0).
Qed.

Lemma Math_max_0_nonneg x : (JS.Math_max 0 x <? 0) = false.
Proof.
  unfold JS.Math_max. change (is_nan 0) with false. cbn [orb].
  destruct (is_nan x); [reflexivity|].
  destruct (0 <? x) eqn:H; [by apply pos_not_neg|].
  by destruct (x <? 0).
Qed.

End FloatOrder.

(** ** Meal and daily totals (the [MealEntry] pre-save hook) *)

Section Totals.

(** Each field of the folded meal totals is the fold of that field. *)
Lemma foldl_addFood fs : ∀ acc,
  foldl addFood acc fs =
  {| Macros.calories :=
       foldl add (Macros.calories acc)
         ((λ f, INutrition.calories (actualNutrition f)) <$> fs);
     Macros.protein :=
       foldl add (Macros.protein acc)
         ((λ f, INutrition.protein (actualNutrition f)) <$> fs);
     Macros.carbohydrates :=
       foldl add (Macros.carbohydrates acc)
         ((λ f, INutrition.carbohydrates (actualNutrition f)) <$> fs);
     Macros.fat :=
       foldl add (Macros.fat acc)
         ((λ f, INutrition.fat (actualNutrition f)) <$> fs);
     Macros.fiber :=
       foldl add (Macros.fiber acc)
         ((λ f, INutrition.fiber (actualNutrition f)) <$> fs) |}.
Proof.
  induction fs as [|f fs IH]; intros acc; cbn.
  - by destruct acc.
  - by rewrite IH.
Qed.

Lemma refreshMeal_ok meal : mealTotalsOk (refreshMeal meal).
Proof.
  unfold mealTotalsOk, refreshMeal, calculatedTotals; cbn.
  rewrite foldl_addFood. by repeat split.
Qed.

Lemma foldl_addMeal_calories ms : ∀ acc,
  INutrition.calories (foldl addMeal acc ms)
  = foldl add (INutrition.calories acc) ((λ m, Macros.calories (mealTotals m)) <$> ms).
Proof. induction ms as [|m ms IH]; intros acc; cbn; [done|by rewrite IH]. Qed.

Lemma foldl_addMeal_protein ms : ∀ acc,
  INutrition.protein (foldl addMeal acc ms)
  = foldl add (INutrition.protein acc) ((λ m, Macros.protein (mealTotals m)) <$> ms).
Proof. induction ms as [|m ms IH]; intros acc; cbn; [done|by rewrite IH]. Qed.

Lemma foldl_addMeal_carbohydrates ms : ∀ acc,
  INutrition.carbohydrates (foldl addMeal acc ms)
  = foldl add (INutrition.carbohydrates acc)
      ((λ m, Macros.carbohydrates (mealTotals m)) <$> ms).
Proof. induction ms as [|m ms IH]; intros acc; cbn; [done|by rewrite IH]. Qed.

Lemma foldl_addMeal_fat ms : ∀ acc,
  INutrition.fat (foldl addMeal acc ms)
  = foldl add (INutrition.fat acc) ((λ m, Macros.fat (mealTotals m)) <$> ms).
Proof. induction ms as [|m ms IH]; intros acc; cbn; [done|by rewrite IH]. Qed.

Lemma foldl_addMeal_fiber ms : ∀ acc,
  INutrition.fiber (foldl addMeal acc ms)
  = foldl add (INutrition.fiber acc) ((λ m, Macros.fiber (mealTotals m)) <$> ms).
Proof. induction ms as [|m ms IH]; intros acc; cbn; [done|by rewrite IH]. Qed.

Lemma preSave_consistent e : totalsConsistent (preSave e).
Proof.
  split.
  - cbn. apply Forall_fmap, Forall_forall. intros m _. apply refreshMeal_ok.
  - unfold dailyTotalsOk, Spec.sum; cbn.
    rewrite foldl_addMeal_calories, foldl_addMeal_protein,
      foldl_addMeal_carbohydrates, foldl_addMeal_fat, foldl_addMeal_fiber.
    by repeat split.
Qed.

(** The reduction keeps the extended fields at [0]. *)
Lemma foldl_addMeal_extended ms : ∀ acc,
  extendedZero acc → extendedZero (foldl addMeal acc ms).
Proof.
  induction ms as [|m ms IH]; intros acc Hacc; cbn; [done|].
  apply IH. destruct Hacc as (Hs & Hna & Hk & Hca & Hfe).
  unfold extendedZero; cbn. rewrite Hs, Hna, Hk, Hca, Hfe. by repeat split.
Qed.

Lemma preSave_extended e : extendedZero (dailyTotals (preSave e)).
Proof. cbn. apply foldl_addMeal_extended. by repeat split. Qed.

(** What a successful request stores went through [preSave] last. *)
Lemma handler_Saved method user body userData found now status e :
  MealsIndex.handler method user body userData found now = MealsIndex.Saved status e →
  ∃ e0, e = preSave e0.
Proof.
  unfold MealsIndex.handler. intros H.
  repeat case_match; try discriminate; injection H as _ <-; eauto.
Qed.

End Totals.

(** C1.  Every entry that leaves the pre-save hook, and so every entry a
    successful request to [meals/index] stores, has each meal's totals equal
    to the field-by-field sums of [actualNutrition] over the meal's foods
    and its daily totals equal to the field-by-field sums of the meals'
    totals; a meal without foods gets all-zero totals. *)
Theorem totals_additive :
  (∀ e, totalsConsistent (preSave e))
  ∧ (∀ method user body userData found now status e,
       MealsIndex.handler method user body userData found now
         = MealsIndex.Saved status e →
       totalsConsistent e)
  ∧ (∀ ty totals,
       mealTotals (refreshMeal {| mealType := ty; foods := []; mealTotals := totals |})
       = zeroTotals).
Proof.
  split; [exact preSave_consistent|split].
  - intros method user body userData found now status e H.
    apply handler_Saved in H as [e0 ->]. apply preSave_consistent.
  - reflexivity.
Qed.

Lemma totals_additive_witness :
  MealsIndex.handler "POST" (Some "u1") (Sample.breakfastBody 300) (Some Sample.userGoals)
    None Sample.today = MealsIndex.Saved 201 (Sample.day 300 15 1700)
  ∧ totalsConsistent (Sample.day 300 15 1700).
Proof.
  assert (H : MealsIndex.handler "POST" (Some "u1") (Sample.breakfastBody 300)
                (Some Sample.userGoals) None Sample.today
              = MealsIndex.Saved 201 (Sample.day 300 15 1700)) by reflexivity.
  split; [exact H|].
  exact (proj1 (proj2 totals_additive) _ _ _ _ _ _ _ _ H).
Defined.

(** C10.  After every save of a meal entry the extended fields of
    [dailyTotals] (sugar, sodium, potassium, calcium, iron) are exactly [0],
    also when the day's foods carry other values for them. *)
Theorem extended_totals_zero :
  (∀ e, extendedZero (dailyTotals (preSave e)))
  ∧ INutrition.sugar (actualNutrition Sample.banana) = 12
  ∧ INutrition.potassium (actualNutrition Sample.banana) = 358
  ∧ dailyTotals (preSave Sample.bananaDay)
    = INutrition.mk 89 1.1 23 0.3 2.6 0 0 0 0 0.
Proof.
  split; [exact preSave_extended|]. by repeat split.
Qed.

(** ** Metabolic formulas and macro percentages (the [User] model) *)

(** Two numbers are different when a comparison tells them apart. *)
Lemma float_neq_by_ltb (x y z : float) :
  (x <? z) = false → (y <? z) = true → x ≠ y.
Proof. intros Hx Hy ->. congruence. Qed.

Section Metabolic.

Lemma generateBMR_spec thisYear this :
  generateBMR thisYear this
  = Spec.computeBMR (Spec.toKg (weight (profile this)))
      (Spec.toCm (height (profile this)))
      (JS.of_Z thisYear - JS.of_Z (dateOfBirth (profile this)))
      (gender (profile this)).
Proof.
  unfold generateBMR, Spec.computeBMR, Spec.toKg, Spec.toCm.
  by destruct (gender (profile this)).
Qed.









End Metabolic.

(** C2, as the code has it.  For a male profile [generateBMR] is
    [10*weight + 6.25*height - 5*age + 5] on the metric weight and height,
    rounded to the nearest integer; the front end's [calculateBMR] is the
    same formula without the rounding.  At 75 kg, 180 cm, age 34, male, both
    return 1710. *)
Theorem bmr_male_formula :
  (∀ thisYear this,
     gender (profile this) = male →
     generateBMR thisYear this
     = JS.Math_round
         (10 * Spec.toKg (weight (profile this))
          + 6.25 * Spec.toCm (height (profile this))
          - 5 * (JS.of_Z thisYear - JS.of_Z (dateOfBirth (profile this)))
          + 5))
  ∧ (∀ thisYear this,
       generateBMR thisYear this
       = Spec.computeBMR (Spec.toKg (weight (profile this)))
           (Spec.toCm (height (profile this)))
           (JS.of_Z thisYear - JS.of_Z (dateOfBirth (profile this)))
           (gender (profile this)))
  ∧ (∀ weight height age,
       calculateBMR weight height age "male"
       = 10 * weight + 6.25 * height - 5 * age + 5)
  ∧ generateBMR 2024 (Sample.john moderate) = 1710
  ∧ calculateBMR 75 180 34 "male" = 1710.
Proof.
  split; [|split; [exact generateBMR_spec|by repeat split]].
  intros thisYear this Hm. rewrite generateBMR_spec, Hm. reflexivity.
Qed.

Lemma bmr_male_formula_witness :
  gender (profile (Sample.john moderate)) = male
  ∧ generateBMR 2024 (Sample.john moderate)
    = JS.Math_round (10 * 75 + 6.25 * 180 - 5 * (2024 - 1990) + 5).
Proof.
  split; [reflexivity|].
  exact (proj1 bmr_male_formula 2024%Z (Sample.john moderate) eq_refl).
Defined.

(** C2 as stated fails on the scenario: the formula gives 1710 at 75 kg,
    180 cm, age 34, male, and not 1650; and the front end's [calculateBMR]
    does not round. *)
Lemma bmr_scenario_not_1650 :
  ¬ (generateBMR 2024 (Sample.john moderate) = 1650)
  ∧ ¬ (calculateBMR 75 180 34 "male" = 1650)
  ∧ ¬ (Spec.computeBMR 75 180 34 male = 1650)
  ∧ calculateBMR 70.5 175 28 "male" = 1663.75.
Proof.
  repeat split; try by apply (float_neq_by_ltb _ _ 1700).
Qed.




(** C8.  When [goals.macroTargets] or [goals.dailyCalories] is modified, the
    hook sets each macro percentage to
    [round(grams * kcalPerGram / dailyCalories * 100)], with 4 kcal/g for
    protein and carbohydrates and 9 kcal/g for fat, and leaves targets and
    calories as they are; targets 150/250/44 g at 2000 kcal give 30/50/20. *)
Theorem macro_percentages_recomputed :
  (∀ this,
     isModified this "goals.macroTargets" = true
     ∨ isModified this "goals.dailyCalories" = true →
     macroPercentages (goals (preSaveUser this))
     = Some
         {| MacroPercentages.protein :=
              Spec.macroPercentage Spec.Protein
                (MacroTargets.protein (macroTargets (goals this)))
                (dailyCalories (goals this));
            MacroPercentages.carbohydrates :=
              Spec.macroPercentage Spec.Carbohydrates
                (MacroTargets.carbohydrates (macroTargets (goals this)))
                (dailyCalories (goals this));
            MacroPercentages.fat :=
              Spec.macroPercentage Spec.Fat
                (MacroTargets.fat (macroTargets (goals this)))
                (dailyCalories (goals this)) |}
     ∧ macroTargets (goals (preSaveUser this)) = macroTargets (goals this)
     ∧ dailyCalories (goals (preSaveUser this)) = dailyCalories (goals this))
  ∧ macroPercentages (goals (preSaveUser (Sample.john moderate)))
    = Some (MacroPercentages.mk 30 50 20).
Proof.
  split; [|reflexivity].
  intros this Hmod. unfold preSaveUser.
  replace (isModified this "goals.macroTargets" || isModified this "goals.dailyCalories")
    with true by (symmetry; apply orb_true_iff; exact Hmod).
  by repeat split.
Qed.

Lemma macro_percentages_recomputed_witness :
  isModified (Sample.john moderate) "goals.macroTargets" = true
  ∧ macroPercentages (goals (preSaveUser (Sample.john moderate)))
    = Some
        {| MacroPercentages.protein := Spec.macroPercentage Spec.Protein 150 2000;
           MacroPercentages.carbohydrates :=
             Spec.macroPercentage Spec.Carbohydrates 250 2000;
           MacroPercentages.fat := Spec.macroPercentage Spec.Fat 44 2000 |}.
Proof.
  split; [reflexivity|].
  exact (proj1 (proj1 macro_percentages_recomputed (Sample.john moderate)
                  (or_introl eq_refl))).
Defined.


(** ** The [foods/[id]] handler and the mock nutrition data *)

Lemma float_trichotomy x :
  is_nan x = true ∨ (x <=? 0) = true ∨ (0 <? x) = true.
Proof.
  rewrite is_nan_spec, FloatAxioms.leb_spec, FloatAxioms.ltb_spec, Prim2SF_zero.
  destruct (Prim2SF x) as [[]|[]| |[] m e]; cbn; auto.
Qed.

(** C3, as the code has it.  On a GET request from an authenticated user
    with a numeric id, the handler answers [INVALID_AMOUNT] when the parsed
    amount is NaN or at most zero (minus infinity included) and calls no
    lookup; for every amount above zero, plus infinity included, it answers
    with the looked-up food.  Every amount falls in one of the two cases. *)
Theorem invalid_amount_guard :
  (∀ mockMode apiFood req foodId,
     FoodsId.method req = "GET" →
     is_Some (FoodsId.user req) →
     FoodsId.id req = Some foodId →
     JS.isNaN foodId = false →
     ((JS.isNaN (FoodsId.amountNum req) = true
       ∨ (FoodsId.amountNum req <=? 0) = true) →
      FoodsId.handler mockMode apiFood req = FoodsId.INVALID_AMOUNT)
     ∧ ((0 <? FoodsId.amountNum req) = true →
        ∃ food unit,
          FoodsId.handler mockMode apiFood req
          = FoodsId.Ok food (FoodsId.amountNum req) unit)
     ∧ (JS.isNaN (FoodsId.amountNum req) = true
        ∨ (FoodsId.amountNum req <=? 0) = true
        ∨ (0 <? FoodsId.amountNum req) = true))
  ∧ FoodsId.handler true None (Sample.foodRequest neg_infinity) = FoodsId.INVALID_AMOUNT
  ∧ FoodsId.handler true None (Sample.foodRequest nan) = FoodsId.INVALID_AMOUNT
  ∧ FoodsId.handler true None (Sample.foodRequest 0) = FoodsId.INVALID_AMOUNT
  ∧ FoodsId.handler true None (Sample.foodRequest infinity)
    = FoodsId.Ok (SpoonacularService.getMockNutritionData 1 infinity "grams")
        infinity "grams".
Proof.
  split; [|by repeat split].
  intros mockMode apiFood req foodId Hget [u Hu] Hid Hnum.
  unfold FoodsId.handler. rewrite Hget, Hu, Hid, Hnum. cbn.
  split; [|split].
  - intros Hbad.
    replace (JS.isNaN (FoodsId.amountNum req) || (FoodsId.amountNum req <=? 0))
      with true; [done|].
    symmetry. apply orb_true_iff. exact Hbad.
  - intros Hpos. unfold JS.isNaN.
    rewrite (pos_not_nan _ Hpos), (pos_not_le _ Hpos). cbn. eauto.
  - apply float_trichotomy.
Qed.

Lemma invalid_amount_guard_witness :
  (0 <? FoodsId.amountNum (Sample.foodRequest 150)) = true
  ∧ ∃ food unit,
      FoodsId.handler true None (Sample.foodRequest 150) = FoodsId.Ok food 150 unit.
Proof.
  split; [reflexivity|].
  exact (proj1 (proj2 (proj1 invalid_amount_guard true None (Sample.foodRequest 150) 1
                         eq_refl (ex_intro _ "u1"%string eq_refl) eq_refl eq_refl))
           eq_refl).
Defined.

(** C3 as stated fails: plus infinity is a non-finite amount, and the
    handler does not answer [INVALID_AMOUNT] for it. *)
Lemma infinite_amount_accepted :
  is_finite (FoodsId.amountNum (Sample.foodRequest infinity)) = false
  ∧ FoodsId.handler true None (Sample.foodRequest infinity) ≠ FoodsId.INVALID_AMOUNT.
Proof. split; [reflexivity|]. intros H. vm_compute in H. discriminate. Qed.

(** C4.  The mock nutrition data is the reference record scaled by
    [amount / 100], calories rounded to the nearest integer and the
    gram-valued macros to one decimal place; chicken breast (165 kcal, 31 g
    protein, 0 g carbohydrates, 3.6 g fat per 100 g) at 150 g gives 248 kcal,
    46.5 g, 0 g and 5.4 g. *)
Theorem mock_scaling_rounds :
  (∀ id amount unit,
     macrosOfSpoonacular
       (nutrition (SpoonacularService.getMockNutritionData id amount unit))
     = Spec.scale (macrosOfSpoonacular (SpoonacularService.baseNutrition id))
         amount 100)
  ∧ macrosOfSpoonacular (SpoonacularService.baseNutrition 1)
    = Macros.mk 165 31 0 3.6 0
  ∧ macrosOfSpoonacular
      (nutrition (SpoonacularService.getMockNutritionData 1 150 "grams"))
    = Macros.mk 248 46.5 0 5.4 0
  ∧ Spec.scale (Macros.mk 165 31 0 3.6 0) 150 100 = Macros.mk 248 46.5 0 5.4 0.
Proof. by repeat split. Qed.

(** ** Goal progress *)

(** C5.  Each progress record holds the target, the actual value rounded to
    two decimals, the percentage [round(actual / target * 100)] when the
    target is above zero and [0] otherwise, whatever the actual value, and
    the remainder [target - actual] when that is above zero and [0] when it
    is not: the remainder is never below zero.  With 2000 kcal as goal and
    1450 kcal eaten the calories record is target 2000, actual 1450,
    percentage 73, remaining 550. *)
Theorem goal_progress :
  (∀ actual target,
     let r := calculateGoalProgress actual target in
     IGoalProgress.target r = target
     ∧ IGoalProgress.actual r = Spec.round2 actual
     ∧ ((0 <? target) = true →
        IGoalProgress.percentage r = JS.Math_round (actual / target * 100))
     ∧ ((0 <? target) = false → IGoalProgress.percentage r = 0)
     ∧ ((0 <? target - actual) = true → IGoalProgress.remaining r = target - actual)
     ∧ ((target - actual <=? 0) = true → IGoalProgress.remaining r = 0)
     ∧ (IGoalProgress.remaining r <? 0) = false)
  ∧ (∀ actual, IGoalProgress.percentage (calculateGoalProgress actual 0) = 0)
  ∧ (∀ totals goals,
       GoalProgressSet.calories (evaluateProgress totals goals)
       = calculateGoalProgress (INutrition.calories totals) (dailyCalories goals)
       ∧ GoalProgressSet.protein (evaluateProgress totals goals)
         = calculateGoalProgress (INutrition.protein totals)
             (MacroTargets.protein (macroTargets goals))
       ∧ GoalProgressSet.carbohydrates (evaluateProgress totals goals)
         = calculateGoalProgress (INutrition.carbohydrates totals)
             (MacroTargets.carbohydrates (macroTargets goals))
       ∧ GoalProgressSet.fat (evaluateProgress totals goals)
         = calculateGoalProgress (INutrition.fat totals)
             (MacroTargets.fat (macroTargets goals)))
  ∧ evaluateProgress Sample.eaten Sample.userGoals
    = {| GoalProgressSet.calories := IGoalProgress.mk 2000 1450 73 550;
         GoalProgressSet.protein := IGoalProgress.mk 150 95 63 55;
         GoalProgressSet.carbohydrates := IGoalProgress.mk 250 180 72 70;
         GoalProgressSet.fat := IGoalProgress.mk 65 45 69 20 |}.
Proof.
  split; [|by repeat split].
  intros actual target r. subst r. unfold calculateGoalProgress; cbn.
  repeat split.
  - by intros ->.
  - by intros ->.
  - apply Math_max_0_pos.
  - apply Math_max_0_le.
  - apply Math_max_0_nonneg.
Qed.

Lemma goal_progress_witness :
  (0 <? 2000) = true
  ∧ IGoalProgress.percentage (calculateGoalProgress 1450 2000)
    = JS.Math_round (1450 / 2000 * 100).
Proof.
  split; [reflexivity|].
  exact (proj1 (proj2 (proj2 (proj1 goal_progress 1450 2000))) eq_refl).
Defined.

(** ** The [meals/index] handler: one meal per type, replaced on resubmission *)

Section Upsert.

Context (uid : string) (goals : IUserGoals) (now : Z) (v : ValidatedData.t).

Local Abbreviation nm := (MealsIndex.newMeal now v).
Local Abbreviation ty := (ValidatedData.mealType v).

Lemma newMeal_type : mealType nm = ty.
Proof. reflexivity. Qed.

(** The submitted meal is in the entry handed to [save()]. *)
Lemma upsert_new_in found :
  nm ∈ meals (MealsIndex.upsert uid goals now v found).
Proof.
  destruct found as [e|]; cbn; [|apply list_elem_of_singleton; reflexivity].
  destruct (list_find _ (meals e)) as [[i old]|] eqn:Hfind.
  - apply list_find_Some in Hfind as (Hi & _ & _).
    apply list_elem_of_insert. by eapply lookup_lt_Some.
  - apply elem_of_app. right. by apply list_elem_of_singleton.
Qed.

(** Every other meal of that entry was in the found entry, and has another
    type when the found entry has one meal per type. *)
Lemma upsert_elem e m :
  m ∈ meals (MealsIndex.upsert uid goals now v (Some e)) →
  m = nm ∨ (m ∈ meals e ∧ (NoDup (mealType <$> meals e) → mealType m ≠ ty)).
Proof.
  cbn. destruct (list_find _ (meals e)) as [[i old]|] eqn:Hfind.
  - apply list_find_Some in Hfind as (Hi & Hold & _).
    intros [j Hj]%list_elem_of_lookup_1.
    destruct (decide (i = j)) as [<-|Hne].
    + rewrite list_lookup_insert_eq in Hj by (by eapply lookup_lt_Some).
      left. by injection Hj.
    + rewrite list_lookup_insert_ne in Hj by done.
      right. split; [by eapply list_elem_of_lookup_2|].
      intros Hnd Hty. apply Hne.
      apply (NoDup_lookup (mealType <$> meals e) i j ty Hnd).
      * by rewrite list_lookup_fmap, Hi, <- Hold.
      * by rewrite list_lookup_fmap, Hj, <- Hty.
  - apply list_find_None in Hfind.
    intros [Hin | ->%list_elem_of_singleton]%elem_of_app; [right|by left].
    split; [done|]. intros _.
    by apply (proj1 (Forall_forall _ _) Hfind).
Qed.

(** One meal per type is kept by the replacement and by the push. *)
Lemma upsert_NoDup found :
  (∀ e, found = Some e → NoDup (mealType <$> meals e)) →
  NoDup (mealType <$> meals (MealsIndex.upsert uid goals now v found)).
Proof.
  destruct found as [e|]; cbn; [|intros _; apply NoDup_singleton].
  intros Hnd. specialize (Hnd e eq_refl).
  destruct (list_find _ (meals e)) as [[i old]|] eqn:Hfind.
  - apply list_find_Some in Hfind as (Hi & Hold & _).
    rewrite list_fmap_insert, list_insert_id; [done|].
    change (mealType nm) with ty. by rewrite list_lookup_fmap, Hi, <- Hold.
  - apply list_find_None in Hfind.
    rewrite fmap_app. apply NoDup_app. split; [done|]. split; [|apply NoDup_singleton].
    intros t [m [-> Hm]]%list_elem_of_fmap_1 Heq%list_elem_of_singleton.
    by apply (proj1 (Forall_forall _ _) Hfind m Hm).
Qed.

(** A replacement keeps the number of meals. *)
Lemma upsert_length e i old :
  list_find (λ meal, mealType meal = ty) (meals e) = Some (i, old) →
  length (meals (MealsIndex.upsert uid goals now v (Some e))) = length (meals e).
Proof. cbn. intros ->. apply length_insert. Qed.

End Upsert.

Lemma refreshMeal_type m : mealType (refreshMeal m) = mealType m.
Proof. reflexivity. Qed.

Lemma refreshMeal_idemp m : refreshMeal (refreshMeal m) = refreshMeal m.
Proof. reflexivity. Qed.

Lemma refreshMeal_types (l : list IMeal) :
  mealType <$> (refreshMeal <$> l) = mealType <$> l.
Proof. rewrite <- list_fmap_compose. by apply list_fmap_ext. Qed.

(** What a successful request stores: the entry built by [upsert], with
    every meal refreshed. *)
Lemma handler_Saved_meals method user body userData found now status e :
  MealsIndex.handler method user body userData found now = MealsIndex.Saved status e →
  ∃ uid v goals,
    user = Some uid ∧ MealsIndex.mealSchema_parse body = Some v
    ∧ userData = Some goals
    ∧ meals e = refreshMeal <$> meals (MealsIndex.upsert uid goals now v found)
    ∧ dailyTotals e
      = foldl addMeal zeroNutrition
          (refreshMeal <$> meals (MealsIndex.upsert uid goals now v found)).
Proof.
  unfold MealsIndex.handler. intros H.
  destruct (negb _); [discriminate|].
  destruct user as [uid|]; [|discriminate].
  destruct (MealsIndex.mealSchema_parse body) as [v|]; [|discriminate].
  destruct userData as [goals|]; [|discriminate].
  destruct (_ && _); [|discriminate].
  injection H as _ <-. exists uid, v, goals. repeat split; cbn.
  - rewrite <- list_fmap_compose. by apply list_fmap_ext.
  - f_equal. rewrite <- list_fmap_compose. by apply list_fmap_ext.
Qed.

(** Every entry the handler can leave in the store has one meal per type. *)
Lemma reachable_NoDup found :
  reachable found → ∀ e, found = Some e → NoDup (mealType <$> meals e).
Proof.
  induction 1 as [|found method user body userData now Hreach IH]; [done|].
  intros e He.
  destruct (MealsIndex.handler method user body userData found now) eqn:Hh;
    cbn in He; try by apply IH.
  injection He as ->.
  apply handler_Saved_meals in Hh as (uid & v & goals & _ & _ & _ & -> & _).
  rewrite refreshMeal_types. by apply upsert_NoDup.
Qed.


(** C6.  Every entry the handler can leave in the store holds at most one
    meal per meal type.  A successful submission for an entry with one meal
    per type stores the submitted meal, refreshed, as the only meal of its
    type, with exactly the submitted foods; the meals of the other types are
    those of the found entry, and a replacement keeps the number of meals.
    A day with a breakfast of 300 kcal, after a new breakfast of 400 kcal is
    submitted, has one meal and 400 kcal as daily calories. *)
Theorem replace_not_merge :
  (∀ found e, reachable found → found = Some e → NoDup (mealType <$> meals e))
  ∧ (∀ method user body userData e now status e',
       NoDup (mealType <$> meals e) →
       MealsIndex.handler method user body userData (Some e) now
         = MealsIndex.Saved status e' →
       ∃ v,
         MealsIndex.mealSchema_parse body = Some v
         ∧ refreshMeal (MealsIndex.newMeal now v) ∈ meals e'
         ∧ (∀ m, m ∈ meals e' → mealType m = ValidatedData.mealType v →
              m = refreshMeal (MealsIndex.newMeal now v))
         ∧ (∀ m, m ∈ meals e' → mealType m ≠ ValidatedData.mealType v →
              ∃ m0, m0 ∈ meals e ∧ m = refreshMeal m0)
         ∧ NoDup (mealType <$> meals e')
         ∧ (∀ i old,
              list_find (λ meal, mealType meal = ValidatedData.mealType v) (meals e)
                = Some (i, old) →
              length (meals e') = length (meals e)))
  ∧ (∀ now v,
       foods (refreshMeal (MealsIndex.newMeal now v))
       = MealsIndex.toFood now <$> ValidatedData.foods v)
  ∧ MealsIndex.handler "POST" (Some "u1") (Sample.breakfastBody 300)
      (Some Sample.userGoals) None Sample.today
    = MealsIndex.Saved 201 (Sample.day 300 15 1700)
  ∧ MealsIndex.handler "POST" (Some "u1") (Sample.breakfastBody 400)
      (Some Sample.userGoals) (Some (Sample.day 300 15 1700)) Sample.today
    = MealsIndex.Saved 201 (Sample.day 400 20 1600)
  ∧ INutrition.calories (dailyTotals (Sample.day 400 20 1600)) = 400
  ∧ length (meals (Sample.day 400 20 1600)) = 1%nat.
Proof.
  split; [intros found e R; by apply reachable_NoDup|split; [|by repeat split]].
  intros method user body userData e now status e' Hnd Hh.
  apply handler_Saved_meals in Hh as (uid & v & goals & _ & Hv & _ & Hmeals & _).
  exists v. rewrite Hmeals. split; [done|]. split; [|split; [|split; [|split]]].
  - apply list_elem_of_fmap_2, upsert_new_in.
  - intros m [m0 [-> Hm0]]%list_elem_of_fmap_1 Hty.
    apply upsert_elem in Hm0 as [->|[_ Hne]]; [done|].
    by destruct (Hne Hnd).
  - intros m [m0 [-> Hm0]]%list_elem_of_fmap_1 Hty.
    apply upsert_elem in Hm0 as [->|[Hin _]]; [done|]. eauto.
  - rewrite refreshMeal_types. apply upsert_NoDup. by intros ? [= <-].
  - intros i old Hfind. rewrite length_fmap. by eapply upsert_length.
Qed.

Lemma replace_not_merge_witness :
  reachable (Some (Sample.day 400 20 1600))
  ∧ NoDup (mealType <$> meals (Sample.day 400 20 1600)).
Proof.
  assert (R : reachable (Some (Sample.day 400 20 1600))).
  { exact (reachable_request _ "POST" (Some "u1") (Sample.breakfastBody 400)
             (Some Sample.userGoals) Sample.today
             (reachable_request None "POST" (Some "u1") (Sample.breakfastBody 300)
                (Some Sample.userGoals) Sample.today reachable_empty)). }
  split; [exact R|].
  exact (proj1 replace_not_merge _ _ R eq_refl).
Defined.

(** ** Stored actual nutrition *)

Lemma forallb_Forall {A} (p : A → bool) (l : list A) :
  forallb p l = true → Forall (λ x, p x = true) l.
Proof.
  induction l as [|x l IH]; cbn; [by constructor|].
  intros [Hx Hl]%andb_prop. constructor; auto.
Qed.

Lemma mealSchema_parse_Some body v :
  MealsIndex.mealSchema_parse body = Some v →
  ValidatedData.foods v = MealBody.foods body
  ∧ MealsIndex.z_mealType (MealBody.mealType body) = Some (ValidatedData.mealType v)
  ∧ Forall (λ f, MealsIndex.z_food f = true) (MealBody.foods body).
Proof.
  unfold MealsIndex.mealSchema_parse.
  destruct (MealsIndex.z_mealType _) as [ty|]; [|done].
  destruct (forallb _ _) eqn:Hall; [|done].
  intros [= <-]. repeat split. by apply forallb_Forall.
Qed.

(** C9, as the code has it.  A successful request stores a meal of the
    submitted type whose foods carry, as actual nutrition, the five values
    the client sent, each a number of at least zero, and [0] in the extended
    fields; the reference nutrition and the amount take no part in it. *)
Theorem actual_nutrition_as_submitted :
  (∀ method user body userData found now status e,
     MealsIndex.handler method user body userData found now
       = MealsIndex.Saved status e →
     ∃ v m,
       MealsIndex.mealSchema_parse body = Some v
       ∧ m ∈ meals e
       ∧ mealType m = ValidatedData.mealType v
       ∧ actualNutrition <$> foods m
         = (λ f, MealsIndex.castNutrition (FoodInput.actualNutrition f))
             <$> MealBody.foods body
       ∧ Forall (λ f, MealsIndex.z_nutrition (FoodInput.actualNutrition f) = true)
           (MealBody.foods body))
  ∧ MealsIndex.handler "POST" (Some "u1") Sample.unscaledLunch
      (Some Sample.userGoals) None Sample.today
    = MealsIndex.Saved 201 Sample.unscaledDay.
Proof.
  split; [|reflexivity].
  intros method user body userData found now status e Hh.
  apply handler_Saved_meals in Hh as (uid & v & goals & _ & Hv & _ & Hmeals & _).
  destruct (mealSchema_parse_Some _ _ Hv) as (Hfoods & _ & Hz).
  exists v, (refreshMeal (MealsIndex.newMeal now v)).
  split; [done|]. split; [|split; [done|split]].
  - rewrite Hmeals. apply list_elem_of_fmap_2, upsert_new_in.
  - cbn. rewrite Hfoods, <- list_fmap_compose. by apply list_fmap_ext.
  - eapply Forall_impl; [exact Hz|]. cbn. intros f Hf.
    unfold MealsIndex.z_food in Hf. by apply andb_prop in Hf as [_ ?].
Qed.

Lemma actual_nutrition_as_submitted_witness :
  ∃ v m,
    MealsIndex.mealSchema_parse Sample.unscaledLunch = Some v
    ∧ m ∈ meals Sample.unscaledDay
    ∧ mealType m = ValidatedData.mealType v
    ∧ actualNutrition <$> foods m
      = (λ f, MealsIndex.castNutrition (FoodInput.actualNutrition f))
          <$> MealBody.foods Sample.unscaledLunch
    ∧ Forall (λ f, MealsIndex.z_nutrition (FoodInput.actualNutrition f) = true)
        (MealBody.foods Sample.unscaledLunch).
Proof.
  exact (proj1 actual_nutrition_as_submitted "POST" (Some "u1") Sample.unscaledLunch
           (Some Sample.userGoals) None Sample.today 201%Z Sample.unscaledDay eq_refl).
Defined.

(** C9 as stated fails: a client-supplied actual nutrition that is not the
    scaled reference is stored as sent. *)
Lemma stored_actual_not_scaled :
  ¬ (∀ method user body userData found now status e,
       MealsIndex.handler method user body userData found now
         = MealsIndex.Saved status e →
       Forall (λ m, Forall scaledOk (foods m)) (meals e)).
Proof.
  intros H.
  specialize (H "POST" (Some "u1") Sample.unscaledLunch (Some Sample.userGoals)
                None Sample.today 201%Z Sample.unscaledDay eq_refl).
  apply Forall_cons in H as [H _]. apply Forall_cons in H as [H _].
  unfold scaledOk in H. apply (f_equal Macros.calories) in H. vm_compute in H.
  revert H. by apply (float_neq_by_ltb _ _ 500).
Qed.


(** * Further properties of the embedded code *)

(** ** The pre-save hook *)

Lemma preSave_twice e : preSave (preSave e) = preSave e.
Proof.
  unfold preSave; cbn.
  assert (H : refreshMeal <$> (refreshMeal <$> meals e) = refreshMeal <$> meals e).
  { rewrite <- list_fmap_compose. by apply list_fmap_ext. }
  by rewrite H.
Qed.

(** X1.  Running the hook on its own result changes nothing: the totals do not
    drift when an entry is saved again. *)
Theorem preSave_idempotent e : preSave (preSave e) = preSave e.
Proof. apply preSave_twice. Qed.

(** X2.  The hook reads the meals' types and foods only: whatever totals the two
    entries carried before, entries with the same foods per meal leave the
    hook with the same meals and the same daily totals. *)
Theorem preSave_overwrites_stale_totals e1 e2 :
  (λ m, (mealType m, foods m)) <$> meals e1
    = (λ m, (mealType m, foods m)) <$> meals e2 →
  meals (preSave e1) = meals (preSave e2)
  ∧ dailyTotals (preSave e1) = dailyTotals (preSave e2).
Proof.
  intros H.
  assert (Hm : refreshMeal <$> meals e1 = refreshMeal <$> meals e2).
  { revert H. generalize (meals e2). induction (meals e1) as [|m l IH];
      intros [|m' l'] H; try done.
    injection H as Hty Hfoods Hl. cbn. f_equal; [|by apply IH].
    unfold refreshMeal. by rewrite Hty, Hfoods. }
  unfold preSave; cbn. by rewrite Hm.
Qed.

Lemma preSave_overwrites_stale_totals_witness :
  meals (preSave Sample.bananaDayStale) = meals (preSave Sample.bananaDay)
  ∧ dailyTotals (preSave Sample.bananaDayStale) = dailyTotals (preSave Sample.bananaDay).
Proof.
  exact (preSave_overwrites_stale_totals Sample.bananaDayStale Sample.bananaDay eq_refl).
Defined.

(** The hook touches neither the owner, the date, the goal progress, the
    number and order of the meals, nor any meal's type or foods. *)
Lemma preSave_keeps_content e :
  userId (preSave e) = userId e
  ∧ date (preSave e) = date e
  ∧ goalProgress (preSave e) = goalProgress e
  ∧ (λ m, (mealType m, foods m)) <$> meals (preSave e)
    = (λ m, (mealType m, foods m)) <$> meals e.
Proof.
  repeat split. cbn. rewrite <- list_fmap_compose. by apply list_fmap_ext.
Qed.


(** ** The [meals/index] handler *)

(** X4.  The goal progress a successful request stores is never out of date: it
    is the progress of the stored daily totals against the user's goals. *)
Theorem handler_progress_current method user body userData found now status e :
  MealsIndex.handler method user body userData found now = MealsIndex.Saved status e →
  ∃ goals,
    userData = Some goals
    ∧ goalProgress e = evaluateProgress (dailyTotals e) goals.
Proof.
  unfold MealsIndex.handler. intros H.
  destruct (negb _); [discriminate|].
  destruct user as [uid|]; [|discriminate].
  destruct (MealsIndex.mealSchema_parse body) as [v|]; [|discriminate].
  destruct userData as [goals|]; [|discriminate].
  destruct (_ && _); [|discriminate].
  injection H as _ <-. exists goals. split; [done|].
  set (e0 := MealsIndex.upsert uid goals now v found).
  change (dailyTotals (preSave (MealsIndex.setGoalProgress goals (preSave e0))))
    with (dailyTotals (preSave (preSave e0))).
  by rewrite preSave_twice.
Qed.

Lemma handler_progress_current_witness :
  ∃ goals,
    Some Sample.userGoals = Some goals
    ∧ goalProgress (Sample.day 400 20 1600)
      = evaluateProgress (dailyTotals (Sample.day 400 20 1600)) goals.
Proof.
  exact (handler_progress_current "POST" (Some "u1") (Sample.breakfastBody 400)
           (Some Sample.userGoals) (Some (Sample.day 300 15 1700)) Sample.today
           201%Z (Sample.day 400 20 1600) eq_refl).
Defined.

(** X5.  Every entry the handler can leave in the store has at most four
    meals. *)
Theorem reachable_at_most_four_meals found e :
  reachable found → found = Some e → (length (meals e) ≤ 4)%nat.
Proof.
  intros R He. pose proof (reachable_NoDup found R e He) as Hnd.
  rewrite <- (length_fmap mealType).
  change 4%nat with (length [breakfast; lunch; dinner; snack]).
  apply submseteq_length, NoDup_submseteq; [done|].
  intros [] _; set_solver.
Qed.

Lemma reachable_at_most_four_meals_witness :
  (length (meals (Sample.day 300 15 1700)) ≤ 4)%nat.
Proof.
  exact (reachable_at_most_four_meals _ (Sample.day 300 15 1700)
           (reachable_request None "POST" (Some "u1") (Sample.breakfastBody 300)
              (Some Sample.userGoals) Sample.today reachable_empty)
           eq_refl).
Defined.

Lemma mealSchema_parse_date body v :
  MealsIndex.mealSchema_parse body = Some v →
  ValidatedData.date v = MealBody.date body.
Proof.
  unfold MealsIndex.mealSchema_parse.
  destruct (MealsIndex.z_mealType _); [|done].
  destruct (forallb _ _); [|done]. by intros [= <-].
Qed.

(** X6.  A successful request on a day without entry stores an entry of the
    authenticated user, dated as submitted, with the submitted meal alone;
    on a day with an entry it keeps that entry's owner and date, whatever
    date was submitted, and adds at most one meal. *)
Theorem handler_owner_and_date method user body userData found now status e :
  MealsIndex.handler method user body userData found now = MealsIndex.Saved status e →
  ∃ uid v,
    user = Some uid
    ∧ MealsIndex.mealSchema_parse body = Some v
    ∧ match found with
      | None =>
          userId e = uid ∧ date e = MealBody.date body
          ∧ meals e = [refreshMeal (MealsIndex.newMeal now v)]
      | Some e0 =>
          userId e = userId e0 ∧ date e = date e0
          ∧ (length (meals e0) ≤ length (meals e) ≤ S (length (meals e0)))%nat
      end.
Proof.
  unfold MealsIndex.handler. intros H.
  destruct (negb _); [discriminate|].
  destruct user as [uid|]; [|discriminate].
  destruct (MealsIndex.mealSchema_parse body) as [v|] eqn:Hv; [|discriminate].
  destruct userData as [goals|]; [|discriminate].
  destruct (_ && _); [|discriminate].
  injection H as _ <-. exists uid, v. split; [done|]. split; [done|].
  destruct found as [e0|]; cbn.
  - split; [done|]. split; [done|]. rewrite !length_fmap.
    destruct (list_find _ (meals e0)) as [[i old]|].
    + rewrite length_insert. lia.
    + rewrite length_app. cbn. lia.
  - by rewrite (mealSchema_parse_date _ _ Hv).
Qed.

Lemma handler_owner_and_date_witness :
  ∃ uid v,
    Some "u1" = Some uid
    ∧ MealsIndex.mealSchema_parse Sample.lunchBody = Some v
    ∧ userId (Sample.day 300 15 1700) = userId (Sample.day 300 15 1700)
    ∧ date (Sample.day 300 15 1700) = date (Sample.day 300 15 1700)
    ∧ (1 ≤ 2 ≤ 2)%nat.
Proof.
  exact (handler_owner_and_date "PUT" (Some "u1") Sample.lunchBody
           (Some Sample.userGoals) (Some (Sample.day 300 15 1700)) Sample.today 200%Z
           _ eq_refl).
Defined.


(** ** Binary64 facts used below *)

Section FloatFacts.

Lemma SFcompare_antisym x y :
  SFcompare y x = CompOpp <$> SFcompare x y.
Proof.
  destruct x as [[]|[]| |[] m1 e1], y as [[]|[]| |[] m2 e2]; cbn; try done.
  all: rewrite (Z.compare_antisym e2 e1).
  all: destruct (e2 ?= e1)%Z; cbn; try done.
  all: by rewrite (Pos.compare_cont_antisym m1 m2 Eq).
Qed.

(** The order on numbers is asymmetric. *)
Lemma ltb_asym x y : (x <? y) = true → (y <? x) = false.
Proof.
  rewrite !FloatAxioms.ltb_spec. unfold SFltb.
  rewrite (SFcompare_antisym (Prim2SF x) (Prim2SF y)).
  by destruct (SFcompare (Prim2SF x) (Prim2SF y)) as [[]|].
Qed.

(** Subtracting zero changes nothing, not even the sign of a zero. *)
Lemma sub_0_r x : x - 0 = x.
Proof.
  apply FloatAxioms.Prim2SF_inj. rewrite FloatAxioms.sub_spec, Prim2SF_zero.
  by destruct (Prim2SF x) as [[]|[]| |[] m e].
Qed.


(** A number that is not NaN and neither below nor above zero is a zero. *)
Lemma zero_cases x :
  is_nan x = false → (x <? 0) = false → (0 <? x) = false →
  x = 0 ∨ x = neg_zero.
Proof.
  rewrite is_nan_spec, !FloatAxioms.ltb_spec, Prim2SF_zero.
  intros Hnan Hlt Hgt. rewrite <- (FloatAxioms.SF2Prim_Prim2SF x).
  destruct (Prim2SF x) as [[]|[]| |[] m e]; cbn in *; try done; auto.
Qed.

(** [Math.max] with zero does not depend on the order of its arguments. *)
Lemma Math_max_0_comm x : JS.Math_max x 0 = JS.Math_max 0 x.
Proof.
  unfold JS.Math_max. rewrite (orb_comm (is_nan x)).
  destruct (is_nan 0 || is_nan x) eqn:Hnan; [done|].
  change (is_nan 0) with false in Hnan. cbn in Hnan.
  destruct (x <? 0) eqn:Hlt.
  { by rewrite (ltb_asym _ _ Hlt). }
  destruct (0 <? x) eqn:Hgt; [done|].
  by destruct (zero_cases x Hnan Hlt Hgt) as [-> | ->].
Qed.

End FloatFacts.

(** ** The progress ring and the daily summary *)

(** X8.  The ring's percentage never exceeds 100 and is 0 when the target is not
    above zero; its remainder is never below zero and is the remainder the
    server stores for the same actual value and target. *)
Theorem macroRing_clamped current target :
  (100 <? MacroRing.percentage current target) = false
  ∧ ((0 <? target) = false → MacroRing.percentage current target = 0)
  ∧ (MacroRing.remaining current target <? 0) = false
  ∧ MacroRing.remaining current target
    = IGoalProgress.remaining (calculateGoalProgress current target).
Proof.
  assert (Hrem : MacroRing.remaining current target
                 = IGoalProgress.remaining (calculateGoalProgress current target))
    by apply Math_max_0_comm.
  split; [|split; [|split; [|done]]].
  - unfold MacroRing.percentage. destruct (0 <? target); [|done].
    unfold JS.Math_min. set (x := current / target * 100).
    destruct (is_nan x || is_nan 100); [done|].
    destruct (x <? 100) eqn:Hlt; [by apply ltb_asym|].
    destruct (100 <? x) eqn:Hgt; [done|].
    by destruct (get_sign x).
  - unfold MacroRing.percentage. by intros ->.
  - rewrite Hrem. apply Math_max_0_nonneg.
Qed.

Lemma macroRing_clamped_witness :
  (0 <? 0) = false ∧ MacroRing.percentage 100 0 = 0.
Proof.
  split; [reflexivity|].
  exact (proj1 (proj2 (macroRing_clamped 100 0)) eq_refl).
Defined.




(** ** The connection cache *)

(** X10.  Once a call has connected, every later call returns that same
    connection and leaves the cache as it is, whatever a new connection
    attempt would give: the connection is made once. *)
Theorem connectDB_connects_once {Conn} (connect : option Conn) cached c :
  snd (ConnectDB.connectDB connect cached) = Some c →
  ∀ connects connect',
    ConnectDB.connectDB connect'
      (ConnectDB.run connects (fst (ConnectDB.connectDB connect cached)))
    = (fst (ConnectDB.connectDB connect cached), Some c).
Proof.
  intros Hc connects connect'.
  set (cached1 := fst (ConnectDB.connectDB connect cached)).
  assert (Hconn : ConnectDB.conn cached1 = Some c).
  { subst cached1. unfold ConnectDB.connectDB in *.
    destruct (ConnectDB.conn cached) eqn:E; cbn in *; [congruence|].
    destruct (ConnectDB.promise cached) as [[?|]|]; cbn in *; try congruence.
    destruct connect; cbn in *; congruence. }
  assert (Hstep : ∀ k, ConnectDB.connectDB k cached1 = (cached1, Some c)).
  { intros k. unfold ConnectDB.connectDB. by rewrite Hconn. }
  assert (Hrun : ConnectDB.run connects cached1 = cached1).
  { unfold ConnectDB.run. induction connects as [|k ks IH]; cbn; [done|].
    by rewrite Hstep. }
  by rewrite Hrun.
Qed.

Lemma connectDB_connects_once_witness :
  ConnectDB.connectDB None
    (ConnectDB.run [None; Some 7%nat]
       (fst (ConnectDB.connectDB (Some 5%nat) ConnectDB.initial)))
  = (fst (ConnectDB.connectDB (Some 5%nat) ConnectDB.initial), Some 5%nat).
Proof.
  exact (connectDB_connects_once (Some 5%nat) ConnectDB.initial 5%nat eq_refl
           [None; Some 7%nat] None).
Defined.

(** X11.  A call that throws leaves the cache without connection and without
    promise, so that the next call connects afresh and returns what its own
    attempt gives. *)
Theorem connectDB_retries_after_failure {Conn} (connect connect' : option Conn) cached :
  snd (ConnectDB.connectDB connect cached) = None →
  fst (ConnectDB.connectDB connect cached) = ConnectDB.initial
  ∧ snd (ConnectDB.connectDB connect' (fst (ConnectDB.connectDB connect cached)))
    = connect'.
Proof.
  unfold ConnectDB.connectDB.
  destruct cached as [[c|] [[p|]|]]; cbn; try done.
  - intros _. split; [done|]. by destruct connect'.
  - destruct connect; [done|]. intros _. split; [done|]. by destruct connect'.
Qed.

Lemma connectDB_retries_after_failure_witness :
  fst (ConnectDB.connectDB None (ConnectDB.initial (Conn := nat))) = ConnectDB.initial
  ∧ snd (ConnectDB.connectDB (Some 5%nat)
           (fst (ConnectDB.connectDB None ConnectDB.initial)))
    = Some 5%nat.
Proof.
  exact (connectDB_retries_after_failure None (Some 5%nat) ConnectDB.initial eq_refl).
Defined.

(** ** Authentication utilities *)

Lemma substring_all s : String.substring 0 (String.length s) s = s.
Proof. induction s as [|a s IH]; cbn; [done|by rewrite IH]. Qed.

Lemma substringFrom_Bearer t : AuthLib.substringFrom 7 ("Bearer " +:+ t) = t.
Proof.
  unfold AuthLib.substringFrom. cbv [String.append]. cbn.
  rewrite Nat.sub_0_r. apply substring_all.
Qed.

Lemma prefix_Bearer t : String.prefix "Bearer " ("Bearer " +:+ t) = true.
Proof. cbv [String.append]. cbn. by destruct t. Qed.

Lemma getToken_Bearer t cookie :
  AuthLib.getTokenFromRequest
    {| AuthLib.authorization := Some ("Bearer " +:+ t);
       AuthLib.authTokenCookie := cookie |}
  = Some t.
Proof.
  unfold AuthLib.getTokenFromRequest.
  cbn [AuthLib.authorization AuthLib.authTokenCookie].
  rewrite prefix_Bearer, substringFrom_Bearer.
  by replace (negb _) with true by done.
Qed.

(** X12.  The token of a header [Bearer <token>] is the text after the seven
    characters of the prefix, and the cookie is then not looked at; without
    header the token is the value of the cookie. *)
Theorem bearer_token_round_trip t cookie :
  AuthLib.getTokenFromRequest
    {| AuthLib.authorization := Some ("Bearer " +:+ t);
       AuthLib.authTokenCookie := cookie |}
  = Some t
  ∧ AuthLib.getTokenFromRequest
      {| AuthLib.authorization := None; AuthLib.authTokenCookie := cookie |}
    = cookie.
Proof.
  split; [apply getToken_Bearer|done].
Qed.

(** X13.  A request is authenticated only through a token that is not empty
    and that the verification accepts; when the [authorization] header, as
    [headers.get] returns it (without leading or trailing blanks), is
    [Bearer <token>], the outcome is that of verifying the header's token,
    whatever the cookie holds: a cookie does not rescue a bearer token that
    the verification rejects. *)
Theorem getUserFromRequest_sound verifyToken :
  (∀ request payload,
     AuthLib.getUserFromRequest verifyToken request = Some payload →
     ∃ token,
       AuthLib.getTokenFromRequest request = Some token
       ∧ token ≠ ""
       ∧ verifyToken token = Some payload)
  ∧ (∀ t cookie,
       AuthLib.trimmed ("Bearer " +:+ t) = true →
       AuthLib.getUserFromRequest verifyToken
         {| AuthLib.authorization := Some ("Bearer " +:+ t);
            AuthLib.authTokenCookie := cookie |}
       = verifyToken t).
Proof.
  split.
  - intros request payload. unfold AuthLib.getUserFromRequest.
    destruct (AuthLib.getTokenFromRequest request) as [token|]; [|done].
    destruct (String.eqb token "") eqn:E; [done|].
    intros H. exists token. repeat split; [|done].
    intros ->. by rewrite String.eqb_refl in E.
  - intros t cookie Ht. unfold AuthLib.getUserFromRequest.
    rewrite getToken_Bearer.
    destruct (String.eqb_spec t "") as [->|]; [|reflexivity].
    vm_compute in Ht. discriminate.
Qed.

Lemma getUserFromRequest_sound_witness :
  (∃ token,
     AuthLib.getTokenFromRequest
       {| AuthLib.authorization := Some "Bearer abc";
          AuthLib.authTokenCookie := Some "xyz" |} = Some token
     ∧ token ≠ ""
     ∧ (λ t, Some {| AuthLib.userId := t; AuthLib.email := "a@b.c" |}) token
       = Some {| AuthLib.userId := "abc"; AuthLib.email := "a@b.c" |})
  ∧ AuthLib.trimmed ("Bearer " +:+ "bad") = true
  ∧ AuthLib.getUserFromRequest
      (λ t, if String.eqb t "good"
            then Some {| AuthLib.userId := "u1"; AuthLib.email := "a@b.c" |}
            else None)
      {| AuthLib.authorization := Some "Bearer bad";
         AuthLib.authTokenCookie := Some "good" |}
    = None.
Proof.
  assert (Hbad : AuthLib.trimmed ("Bearer " +:+ "bad") = true) by reflexivity.
  split; [|split; [exact Hbad|]].
  - exact (proj1 (getUserFromRequest_sound
                    (λ t, Some {| AuthLib.userId := t; AuthLib.email := "a@b.c" |}))
             {| AuthLib.authorization := Some "Bearer abc";
                AuthLib.authTokenCookie := Some "xyz" |}
             {| AuthLib.userId := "abc"; AuthLib.email := "a@b.c" |} eq_refl).
  - exact (proj2 (getUserFromRequest_sound
                    (λ t, if String.eqb t "good"
                          then Some {| AuthLib.userId := "u1"; AuthLib.email := "a@b.c" |}
                          else None))
             "bad"%string (Some "good"%string) Hbad).
Defined.

(** ** The auth reducer *)

Lemma authReducer_run_snoc {U} (actions : list (AuthReducer.Action (U := U))) a :
  AuthReducer.run (actions ++ [a])
  = AuthReducer.authReducer (AuthReducer.run actions) a.
Proof. unfold AuthReducer.run. by rewrite foldl_app. Qed.

(** X14.  Whatever actions were dispatched, a state that is not authenticated
    holds neither a user nor a token. *)
Theorem authReducer_no_stale_credentials {U}
    (actions : list (AuthReducer.Action (U := U))) :
  AuthReducer.isAuthenticated (AuthReducer.run actions) = false →
  AuthReducer.user (AuthReducer.run actions) = None
  ∧ AuthReducer.token (AuthReducer.run actions) = None.
Proof.
  induction actions as [|a actions IH] using rev_ind; [done|].
  rewrite authReducer_run_snoc. destruct a; cbn; try done.
Qed.

Lemma authReducer_no_stale_credentials_witness :
  AuthReducer.user
    (AuthReducer.run
       [AuthReducer.LOGIN (Some 1%nat) (Some "mock-token"); AuthReducer.SET_LOADING true;
        AuthReducer.LOGOUT; AuthReducer.Other]) = None
  ∧ AuthReducer.token
      (AuthReducer.run
         [AuthReducer.LOGIN (Some 1%nat) (Some "mock-token"); AuthReducer.SET_LOADING true;
          AuthReducer.LOGOUT; AuthReducer.Other]) = None.
Proof.
  exact (authReducer_no_stale_credentials
           [AuthReducer.LOGIN (Some 1%nat) (Some "mock-token");
            AuthReducer.SET_LOADING true; AuthReducer.LOGOUT; AuthReducer.Other]
           eq_refl).
Defined.

(** X15.  The credentials of a state are those of the last login or logout
    dispatched: loading updates and unknown actions in between or after do
    not change them. *)
Theorem authReducer_last_credential_action {U}
    (actions : list (AuthReducer.Action (U := U))) :
  let s := AuthReducer.run actions in
  (AuthReducer.user s, AuthReducer.token s, AuthReducer.isAuthenticated s)
  = match last (filter (λ a, AuthReducer.isCredentialAction a = true) actions) with
    | Some (AuthReducer.LOGIN u t) => (u, t, true)
    | _ => (None, None, false)
    end.
Proof.
  induction actions as [|a actions IH] using rev_ind; [done|].
  cbn zeta in *. rewrite authReducer_run_snoc, filter_app.
  destruct a; cbn.
  - rewrite decide_True by done. by rewrite last_snoc.
  - rewrite decide_True by done. by rewrite last_snoc.
  - rewrite decide_False, app_nil_r by done. exact IH.
  - rewrite decide_False, app_nil_r by done. exact IH.
Qed.

(** ** The meal logger's list of selected foods *)

Lemma filterIndex_before {Food} (l : list Food) : ∀ k j,
  (j < k)%nat → MealLogger.filterIndex (λ i, negb (i =? j)%nat) k l = l.
Proof.
  induction l as [|x l IH]; intros k j Hjk; cbn; [done|].
  destruct (Nat.eqb_spec k j); [lia|]. cbn. f_equal. apply IH. lia.
Qed.

Lemma filterIndex_remove {Food} (l : list Food) : ∀ k j,
  (k ≤ j)%nat →
  MealLogger.filterIndex (λ i, negb (i =? j)%nat) k l
  = take (j - k) l ++ drop (S (j - k)) l.
Proof.
  induction l as [|x l IH]; intros k j Hkj; cbn.
  - by rewrite take_nil.
  - destruct (Nat.eqb_spec k j) as [->|Hne]; cbn.
    + rewrite Nat.sub_diag. cbn. apply filterIndex_before. lia.
    + rewrite IH by lia.
      replace (j - k)%nat with (S (j - S k)) by lia. reflexivity.
Qed.

(** X16.  Removing at an index drops exactly the food at that position and keeps
    the others in order; an index past the end removes nothing; and
    removing the last position right after a selection gives back the list
    as it was. *)
Theorem handleRemoveFood_drops_one {Food} (index : nat) (prev : list Food) food :
  MealLogger.handleRemoveFood index prev = take index prev ++ drop (S index) prev
  ∧ ((length prev ≤ index)%nat → MealLogger.handleRemoveFood index prev = prev)
  ∧ ((index < length prev)%nat →
     length (MealLogger.handleRemoveFood index prev) = (length prev - 1)%nat)
  ∧ MealLogger.handleRemoveFood (length prev) (MealLogger.handleFoodSelect food prev)
    = prev.
Proof.
  assert (H : ∀ (l : list Food) i,
             MealLogger.handleRemoveFood i l = take i l ++ drop (S i) l).
  { intros l i. unfold MealLogger.handleRemoveFood.
    rewrite filterIndex_remove by lia. by rewrite Nat.sub_0_r. }
  split; [apply H|]. split; [|split].
  - intros Hge. rewrite H, take_ge, drop_ge by lia. apply app_nil_r.
  - intros Hlt. rewrite H, length_app, length_take, length_drop. lia.
  - unfold MealLogger.handleFoodSelect.
    rewrite H, take_app_length, drop_ge by (rewrite length_app; cbn; lia).
    apply app_nil_r.
Qed.

Lemma handleRemoveFood_drops_one_witness :
  (1 < length ["oats"; "yogurt"; "rice"])%nat
  ∧ length (MealLogger.handleRemoveFood 1 ["oats"; "yogurt"; "rice"])
    = (length ["oats"; "yogurt"; "rice"] - 1)%nat.
Proof.
  split; [cbn; lia|].
  exact (proj1 (proj2 (proj2 (handleRemoveFood_drops_one 1 ["oats"; "yogurt"; "rice"]
                                "")))
           ltac:(cbn; lia)).
Defined.

(** ** The virtual [age] and the [dateOfBirth] validator *)

Section Ages.

Local Open Scope Z_scope.

Lemma age_between now birth :
  UserDates.getFullYear now - UserDates.getFullYear birth - 1
  ≤ UserDates.age now birth
  ≤ UserDates.getFullYear now - UserDates.getFullYear birth.
Proof.
  unfold UserDates.age. cbn zeta.
  destruct (_ || _); lia.
Qed.

(** X17.  The virtual age is the difference of the calendar years, or one less:
    it is the difference exactly when the birthday of the year is reached,
    that is, when the month is later or the month is the same and the day
    is not earlier. *)
Theorem virtual_age_bounds now birth :
  let years := UserDates.getFullYear now - UserDates.getFullYear birth in
  years - 1 ≤ UserDates.age now birth ≤ years
  ∧ (UserDates.age now birth = years
     ↔ UserDates.getMonth birth < UserDates.getMonth now
       ∨ (UserDates.getMonth birth = UserDates.getMonth now
          ∧ UserDates.getDate birth ≤ UserDates.getDate now)).
Proof.
  unfold UserDates.age. cbn zeta.
  destruct (Z.ltb_spec (UserDates.getMonth now - UserDates.getMonth birth) 0),
    (Z.eqb_spec (UserDates.getMonth now - UserDates.getMonth birth) 0),
    (Z.ltb_spec (UserDates.getDate now) (UserDates.getDate birth)); cbn; lia.
Qed.

Lemma virtual_age_bounds_witness :
  UserDates.getMonth
    {| UserDates.getFullYear := 1990; UserDates.getMonth := 0; UserDates.getDate := 1 |}
  < UserDates.getMonth
      {| UserDates.getFullYear := 2024; UserDates.getMonth := 5; UserDates.getDate := 15 |}
  ∧ UserDates.age
      {| UserDates.getFullYear := 2024; UserDates.getMonth := 5; UserDates.getDate := 15 |}
      {| UserDates.getFullYear := 1990; UserDates.getMonth := 0; UserDates.getDate := 1 |}
    = 2024 - 1990.
Proof.
  split; [cbn; lia|].
  exact (proj2 (proj2 (virtual_age_bounds
                         {| UserDates.getFullYear := 2024; UserDates.getMonth := 5;
                            UserDates.getDate := 15 |}
                         {| UserDates.getFullYear := 1990; UserDates.getMonth := 0;
                            UserDates.getDate := 1 |}))
           (or_introl eq_refl)).
Defined.

(** X18.  A date of birth the validator accepts gives a virtual age from 12 to
    120: the validator counts calendar years, so it lets pass a user who is
    still twelve until the birthday of the year. *)
Theorem validator_admits_age_from_12 now birth :
  UserDates.validator now birth = true →
  12 ≤ UserDates.age now birth ≤ 120.
Proof.
  unfold UserDates.validator. cbn zeta. intros [H13 H120]%andb_prop.
  apply Z.leb_le in H13, H120.
  pose proof (age_between now birth). lia.
Qed.

Lemma validator_admits_age_from_12_witness :
  UserDates.validator
    {| UserDates.getFullYear := 2024; UserDates.getMonth := 0; UserDates.getDate := 1 |}
    {| UserDates.getFullYear := 2011; UserDates.getMonth := 11; UserDates.getDate := 31 |}
  = true
  ∧ UserDates.age
      {| UserDates.getFullYear := 2024; UserDates.getMonth := 0; UserDates.getDate := 1 |}
      {| UserDates.getFullYear := 2011; UserDates.getMonth := 11; UserDates.getDate := 31 |}
    = 12
  ∧ 12 ≤ 12 ≤ 120.
Proof.
  split; [reflexivity|]. split; [reflexivity|].
  exact (validator_admits_age_from_12
           {| UserDates.getFullYear := 2024; UserDates.getMonth := 0;
              UserDates.getDate := 1 |}
           {| UserDates.getFullYear := 2011; UserDates.getMonth := 11;
              UserDates.getDate := 31 |} eq_refl).
Defined.

End Ages.

(** ** Mock nutrition data *)

(** X19.  At the reference amount of 100 g the mock data of every food of the
    table is its table row, and a food id that is not in the table gets the
    data of food 1, at every amount. *)
Theorem mock_nutrition_table :
  Forall
    (λ row, ∀ unit,
       nutrition (SpoonacularService.getMockNutritionData row.1 100 unit) = row.2)
    SpoonacularService.mockNutrition
  ∧ (∀ id amount unit,
       SpoonacularService.tableLookup id SpoonacularService.mockNutrition = None →
       nutrition (SpoonacularService.getMockNutritionData id amount unit)
       = nutrition (SpoonacularService.getMockNutritionData 1 amount unit)).
Proof.
  split.
  - unfold SpoonacularService.mockNutrition. repeat constructor.
  - intros id amount unit Hnone.
    unfold SpoonacularService.getMockNutritionData, SpoonacularService.baseNutrition.
    by rewrite Hnone.
Qed.

Lemma mock_nutrition_table_witness :
  SpoonacularService.tableLookup 42 SpoonacularService.mockNutrition = None
  ∧ nutrition (SpoonacularService.getMockNutritionData 42 150 "grams")
    = nutrition (SpoonacularService.getMockNutritionData 1 150 "grams").
Proof.
  split; [reflexivity|].
  exact (proj2 mock_nutrition_table 42 150 "grams"%string eq_refl).
Defined.

(** X20.  The front end's mock food details and the service's mock data give the
    same five macro values for every amount and every food id other than 7,
    8, 9 and 10, the rows the front end's table lacks. *)
Theorem mock_details_agree id amount unit :
  (id =? 7) = false → (id =? 8) = false → (id =? 9) = false → (id =? 10) = false →
  MockApi.getFoodDetails id amount
  = macrosOfSpoonacular
      (nutrition (SpoonacularService.getMockNutritionData id amount unit)).
Proof.
  intros H7 H8 H9 H10.
  unfold MockApi.getFoodDetails, SpoonacularService.getMockNutritionData,
    SpoonacularService.baseNutrition, MockApi.mockNutrition,
    SpoonacularService.mockNutrition.
  cbn [MockApi.tableLookup SpoonacularService.tableLookup].
  rewrite H7, H8, H9, H10.
  destruct (id =? 1); [reflexivity|]. destruct (id =? 2); [reflexivity|].
  destruct (id =? 3); [reflexivity|]. destruct (id =? 4); [reflexivity|].
  destruct (id =? 5); [reflexivity|]. by destruct (id =? 6).
Qed.

Lemma mock_details_agree_witness :
  MockApi.getFoodDetails 3 250
  = macrosOfSpoonacular
      (nutrition (SpoonacularService.getMockNutritionData 3 250 "grams")).
Proof.
  exact (mock_details_agree 3 250 "grams"%string eq_refl eq_refl eq_refl eq_refl).
Defined.

(** ** The [User] model and the front end *)

(** X21.  For every profile and every gender, [generateBMR] is the front end's
    [calculateBMR] on the metric weight and height and the calendar-year
    age, rounded to the nearest integer. *)
Theorem generateBMR_rounds_calculateBMR thisYear this :
  generateBMR thisYear this
  = JS.Math_round
      (calculateBMR (Spec.toKg (weight (profile this)))
         (Spec.toCm (height (profile this)))
         (JS.of_Z thisYear - JS.of_Z (dateOfBirth (profile this)))
         (genderName (gender (profile this)))).
Proof.
  unfold generateBMR, calculateBMR, Spec.toKg, Spec.toCm.
  by destruct (gender (profile this)).
Qed.

(** X22.  Running the macro-percentage hook on its own result changes nothing. *)
Theorem preSaveUser_idempotent this :
  preSaveUser (preSaveUser this) = preSaveUser this.
Proof.
  unfold preSaveUser.
  destruct (isModified this "goals.macroTargets" || isModified this "goals.dailyCalories")
    eqn:Hmod; cbn; by rewrite Hmod.
Qed.


(** ** Mock food search *)

(** X23.  Whatever the built-in [toLowerCase] does to a string, the mock
    search returns foods of the table in table order, each once, each with a
    lower-cased name that contains the lower-cased query; with a limit that
    is not negative it returns at most that many, and it never returns more
    than the ten foods of the table. *)
Theorem mock_search_results toLowerCase query limit :
  FoodSearch.getMockSearchResults toLowerCase query limit
    `sublist_of` FoodSearch.mockFoods
  ∧ NoDup (FoodSearch.getMockSearchResults toLowerCase query limit)
  ∧ Forall
      (λ food,
         FoodSearch.includes (toLowerCase (FoodSearch.name food))
           (toLowerCase query) = true)
      (FoodSearch.getMockSearchResults toLowerCase query limit)
  ∧ (length (FoodSearch.getMockSearchResults toLowerCase query limit) ≤ 10)%nat
  ∧ (∀ n, limit = Some n → (0 ≤ n)%Z →
       (Z.of_nat (length (FoodSearch.getMockSearchResults toLowerCase query limit))
        ≤ n)%Z).
Proof.
  set (P := λ food,
         FoodSearch.includes (toLowerCase (FoodSearch.name food))
           (toLowerCase query) = true).
  assert (Hslice : ∀ l : list FoodSearch.SpoonacularSearchResult,
             FoodSearch.slice0 limit l `sublist_of` l).
  { intros l. unfold FoodSearch.slice0. destruct limit as [n|]; [|apply sublist_nil_l].
    destruct (n <? 0)%Z; apply sublist_take. }
  assert (Hsub : FoodSearch.getMockSearchResults toLowerCase query limit
                   `sublist_of` FoodSearch.mockFoods).
  { unfold FoodSearch.getMockSearchResults.
    etrans; [apply Hslice|]. apply sublist_filter. }
  assert (Hnd : NoDup FoodSearch.mockFoods).
  { unfold FoodSearch.mockFoods. repeat (apply NoDup_cons; split);
      [..|apply NoDup_nil_2];
      rewrite ?not_elem_of_cons; repeat split; try apply not_elem_of_nil;
      intros H; apply (f_equal FoodSearch.name) in H; discriminate. }
  split; [done|]. split; [by eapply sublist_NoDup|]. split; [|split].
  - apply Forall_forall. intros food Hin.
    assert (Hf : food ∈ filter P FoodSearch.mockFoods).
    { unfold FoodSearch.getMockSearchResults, FoodSearch.slice0 in Hin.
      destruct limit as [n|]; [|by apply elem_of_nil in Hin].
      destruct (n <? 0)%Z; by apply subseteq_take in Hin. }
    by apply list_elem_of_filter in Hf as [? _].
  - by apply sublist_length in Hsub.
  - intros n -> Hn. unfold FoodSearch.getMockSearchResults, FoodSearch.slice0.
    destruct (Z.ltb_spec n 0); [lia|]. rewrite length_take. lia.
Qed.

Lemma mock_search_results_witness :
  (0 ≤ 2)%Z
  ∧ (Z.of_nat
       (length
          (FoodSearch.getMockSearchResults FoodSearch.asciiToLowerCase "BR"
             (Some 2%Z)))
     ≤ 2)%Z.
Proof.
  split; [lia|].
  exact (proj2 (proj2 (proj2 (proj2
           (mock_search_results FoodSearch.asciiToLowerCase "BR" (Some 2%Z)))))
           2%Z eq_refl ltac:(lia)).
Defined.

Example mock_search_examples :
  FoodSearch.name
    <$> FoodSearch.getMockSearchResults FoodSearch.asciiToLowerCase "BR" (Some 20%Z)
    = ["Chicken Breast"; "Brown Rice"; "Broccoli"]
  ∧ FoodSearch.name
      <$> FoodSearch.getMockSearchResults FoodSearch.asciiToLowerCase "br"
            (Some (-1)%Z)
    = ["Chicken Breast"; "Brown Rice"]
  ∧ FoodSearch.getMockSearchResults FoodSearch.asciiToLowerCase "br" None = [].
Proof. by repeat split. Qed.

(** ** Validity of the stored foods *)

Lemma handler_Saved_valid method user body userData found now status e :
  MealsIndex.handler method user body userData found now = MealsIndex.Saved status e →
  ∃ uid v goals,
    MealsIndex.mealSchema_parse body = Some v
    ∧ forallb MealsIndex.validateFood (foods (MealsIndex.newMeal now v)) = true
    ∧ meals e = refreshMeal <$> meals (MealsIndex.upsert uid goals now v found).
Proof.
  intros H.
  destruct (handler_Saved_meals _ _ _ _ _ _ _ _ H)
    as (uid & v & goals & -> & Hv & -> & Hmeals & _).
  exists uid, v, goals. split; [done|]. split; [|done].
  unfold MealsIndex.handler in H. rewrite Hv in H.
  destruct (negb _); [discriminate|].
  destruct (forallb _ _); [done|]. cbn in H. discriminate.
Qed.

Lemma newMeal_foods_ok body v now :
  MealsIndex.mealSchema_parse body = Some v →
  forallb MealsIndex.validateFood (foods (MealsIndex.newMeal now v)) = true →
  Forall (λ f, storedFoodOk f = true) (foods (MealsIndex.newMeal now v)).
Proof.
  intros Hv Hval. apply mealSchema_parse_Some in Hv as (Hfoods & _ & Hz).
  apply forallb_Forall in Hval. cbn in *. rewrite Hfoods in *.
  apply Forall_forall. intros f' [f [-> Hf]]%list_elem_of_fmap_1.
  pose proof (proj1 (Forall_forall _ _) Hz f Hf) as Hzf.
  pose proof (proj1 (Forall_forall _ _) Hval _
                (list_elem_of_fmap_2 (MealsIndex.toFood now) _ _ Hf)) as Hvf.
  cbn in *. unfold storedFoodOk.
  unfold MealsIndex.z_food in Hzf.
  apply andb_prop in Hzf as [Hzf Hact]. apply andb_prop in Hzf as [_ Hper].
  rewrite Hvf. cbn.
  replace (macrosOf (MealsIndex.castNutrition (FoodInput.actualNutrition f)))
    with (FoodInput.actualNutrition f) by by destruct (FoodInput.actualNutrition f).
  replace (macrosOf (MealsIndex.castNutrition (FoodInput.nutritionPer100g f)))
    with (FoodInput.nutritionPer100g f) by by destruct (FoodInput.nutritionPer100g f).
  by rewrite Hact, Hper.
Qed.

(** X7.  Every food of every entry the handler can leave in the store has an
    amount from 0.1 to 10000, a unit of the enumerated set, and nutrition
    values that are numbers of at least zero. *)
Theorem reachable_foods_valid found e :
  reachable found → found = Some e →
  Forall (λ m, Forall (λ f, storedFoodOk f = true) (foods m)) (meals e).
Proof.
  intros R. revert e.
  induction R as [|found method user body userData now Hreach IH]; [done|].
  intros e He.
  destruct (MealsIndex.handler method user body userData found now) eqn:Hh;
    cbn in He; try by apply IH.
  injection He as ->.
  apply handler_Saved_valid in Hh as (uid & v & goals & Hv & Hval & ->).
  apply Forall_fmap, Forall_forall. intros m Hm. cbn.
  destruct found as [e0|].
  - apply upsert_elem in Hm as [->|[Hin _]].
    + by eapply newMeal_foods_ok.
    + by apply (proj1 (Forall_forall _ _) (IH e0 eq_refl)).
  - cbn in Hm. apply list_elem_of_singleton in Hm as ->.
    by eapply newMeal_foods_ok.
Qed.

Lemma reachable_foods_valid_witness :
  Forall (λ m, Forall (λ f, storedFoodOk f = true) (foods m))
    (meals (Sample.day 300 15 1700)).
Proof.
  exact (reachable_foods_valid _ (Sample.day 300 15 1700)
           (reachable_request None "POST" (Some "u1") (Sample.breakfastBody 300)
              (Some Sample.userGoals) Sample.today reachable_empty)
           eq_refl).
Defined.
